(** * Loan Tracker API: the loan admission logic of [main.py]

    A shallow embedding of [create_loan] (main.py) and of the [Loan]
    schema (schemas.py), with the properties of the specification that
    concern them.

    - Python [float] is IEEE-754 binary64, embedded with the executable
      specification of the Standard Library ([SpecFloat], precision 53,
      [emax] 1024).
    - The handler runs in a small state-and-exception monad over the
      document store; every [find_one] and every insert is recorded in a
      log so that "no lookup was performed" can be stated. *)

From Stdlib Require Import ZArith NArith Bool Ascii String.
From Stdlib Require Import Floats.SpecFloat.
From stdpp Require Import gmap strings list fin_maps.

Open Scope Z_scope.

(** ** Python floats *)

Module PyFloat.

Definition float := spec_float.

Definition prec : Z := 53.
Definition emax : Z := 1024.

Definition mul : float -> float -> float := SFmul prec emax.
Definition div : float -> float -> float := SFdiv prec emax.
Definition eqb : float -> float -> bool := SFeqb.
Definition ltb : float -> float -> bool := SFltb.
Definition leb : float -> float -> bool := SFleb.

(** The float nearest to the integer [z] (ties to even). *)
Definition of_Z (z : Z) : float := binary_normalize prec emax z 0 false.

(** The float nearest to the decimal [n / 10^k], as the literal
    [n e-k] is read. *)
Definition of_decimal (n : Z) (k : nat) : float :=
  match n with
  | Z0 => S754_zero false
  | Zpos p => div (S754_finite false p 0) (S754_finite false (Z.to_pos (10 ^ Z.of_nat k)) 0)
  | Zneg p => div (S754_finite true p 0) (S754_finite false (Z.to_pos (10 ^ Z.of_nat k)) 0)
  end.

Definition zero : float := S754_zero false.          (* 0.0 *)
Definition neg_zero : float := S754_zero true.       (* -0.0 *)
Definition hundred : float := of_Z 100.              (* 100.0 *)
Definition inf : float := S754_infinity false.       (* float('inf') *)
Definition nan : float := S754_nan.

(** [bool(x)] for a float: [x != 0.0]; a NaN is truthy. *)
Definition truthy (x : float) : bool := negb (eqb x zero).

(** [x or y] on floats. *)
Definition or_else (x y : float) : float := if truthy x then x else y.

Definition is_finite (x : float) : bool :=
  match x with
  | S754_zero _ | S754_finite _ _ _ => true
  | _ => false
  end.

Definition is_zero (x : float) : bool :=
  match x with
  | S754_zero _ => true
  | _ => false
  end.

(** The integer nearest to [a / b] for [b > 0], ties to the even one. *)
Definition div_half_even (a b : Z) : Z :=
  let q := a / b in
  let r := a mod b in
  match 2 * r ?= b with
  | Lt => q
  | Gt => q + 1
  | Eq => if Z.even q then q else q + 1
  end.

(** [round(x, 2)]: the exact value of [x] is rounded to two decimal
    places (ties to even on the exact binary value); the decimal is
    then read back as the nearest float.  Infinities and NaN round to
    themselves; a value that rounds to zero keeps its sign. *)
Definition round2 (x : float) : float :=
  match x with
  | S754_finite s m e =>
      if 0 <=? e then x
      else
        match div_half_even (Zpos m * 100) (2 ^ (- e)) with
        | Zpos n => div (S754_finite s n 0) (S754_finite false 100 0)
        | _ => S754_zero s
        end
  | _ => x
  end.

(** Equality as numbers: the same float, or two zeros of either sign. *)
Definition same_number (x y : float) : Prop :=
  x = y \/ (is_zero x = true /\ is_zero y = true).

End PyFloat.

Import PyFloat.


(** ** Identifiers ([bson.ObjectId]) *)

Module Bson.

(** An identifier is a byte string (twelve bytes for the identifiers
    the store assigns). *)
Definition oid := list N.

Definition hexdigit (c : ascii) : option N :=
  let n := N_of_ascii c in
  if ((48 <=? n) && (n <=? 57))%N then Some (n - 48)%N
  else if ((97 <=? n) && (n <=? 102))%N then Some (n - 87)%N
  else if ((65 <=? n) && (n <=? 70))%N then Some (n - 55)%N
  else None.

Definition isspace (c : ascii) : bool :=
  let n := N_of_ascii c in
  ((n =? 32) || ((9 <=? n) && (n <=? 13)))%N.

(** [bytes.fromhex]: two hexadecimal digits per byte, ASCII white
    space skipped between bytes; [None] stands for [ValueError]. *)
Fixpoint fromhex (s : list ascii) : option (list N) :=
  match s with
  | [] => Some []
  | c :: rest =>
      if isspace c then fromhex rest
      else
        match rest with
        | d :: rest' =>
            match hexdigit c, hexdigit d with
            | Some hi, Some lo =>
                match fromhex rest' with
                | Some bs => Some ((16 * hi + lo)%N :: bs)
                | None => None
                end
            | _, _ => None
            end
        | [] => None
        end
  end.

(** [ObjectId(s)] for a string [s]: a string of 24 characters that
    [bytes.fromhex] accepts; [None] stands for [InvalidId]. *)
Definition ObjectId (s : string) : option oid :=
  if (String.length s =? 24)%nat then fromhex (list_ascii_of_string s) else None.

End Bson.

Import Bson.

(** ** Documents and the [Loan] schema (schemas.py) *)

(** A calendar date, as its proleptic Gregorian ordinal. *)
Definition date := Z.

(** The values a stored document holds. *)
Inductive value :=
| VNull
| VBool (b : bool)
| VInt (z : Z)
| VFloat (f : float)
| VStr (s : string)
| VDate (d : date)
| VOid (o : oid).

(** A schema-less document of the store: a dictionary. *)
Abbreviation document := (gmap string value).

(** [Literal["applied", "approved", "funded", "rejected", "closed"]] *)
Inductive LoanStatus := applied | approved | funded | rejected | closed.

#[global] Instance LoanStatus_eq_dec : EqDecision LoanStatus.
Proof. solve_decision. Defined.

(** [==] on two statuses. *)
Definition LoanStatus_eqb (a b : LoanStatus) : bool :=
  match a, b with
  | applied, applied | approved, approved | funded, funded
  | rejected, rejected | closed, closed => true
  | _, _ => false
  end.

(** [class Loan(BaseModel)]; [model_dump] yields a dictionary with the
    same seven keys, for which the same record stands. *)
Record Loan := {
  customer_id : string;
  partner_id : option string;
  amount : float;
  status : LoanStatus;
  application_date : option date;
  funded_date : option date;
  commission_amount : option float
}.

Definition set_commission_amount (data : Loan) (c : option float) : Loan :=
  {| customer_id := customer_id data; partner_id := partner_id data;
     amount := amount data; status := status data;
     application_date := application_date data;
     funded_date := funded_date data; commission_amount := c |}.

Definition set_funded_date (data : Loan) (d : option date) : Loan :=
  {| customer_id := customer_id data; partner_id := partner_id data;
     amount := amount data; status := status data;
     application_date := application_date data;
     funded_date := d; commission_amount := commission_amount data |}.

Definition model_dump (payload : Loan) : Loan := payload.

(** The request body before validation: every field may be missing, and
    the status is still text. *)
Record LoanBody := {
  body_customer_id : option string;
  body_partner_id : option string;
  body_amount : option float;
  body_status : option string;
  body_application_date : option date;
  body_funded_date : option date;
  body_commission_amount : option float
}.

Definition parse_status (s : string) : option LoanStatus :=
  if String.eqb s "applied" then Some applied
  else if String.eqb s "approved" then Some approved
  else if String.eqb s "funded" then Some funded
  else if String.eqb s "rejected" then Some rejected
  else if String.eqb s "closed" then Some closed
  else None.

(** Field by field validation of the [Loan] schema.  Each function
    returns the validated field or the name of the offending one. *)
Definition validate_customer_id (b : LoanBody) : string + string :=
  match body_customer_id b with
  | Some s => inr s                       (* Field(...): required *)
  | None => inl "customer_id"%string
  end.

Definition validate_amount (b : LoanBody) : string + float :=
  match body_amount b with
  | Some a => if ltb zero a then inr a else inl "amount"%string   (* gt=0 *)
  | None => inl "amount"%string                                   (* required *)
  end.

Definition validate_status (b : LoanBody) : string + LoanStatus :=
  match body_status b with
  | None => inr applied                                           (* default *)
  | Some s =>
      match parse_status s with
      | Some st => inr st
      | None => inl "status"%string
      end
  end.

Definition validate_commission_amount (b : LoanBody) : string + option float :=
  match body_commission_amount b with
  | None => inr None
  | Some c => if leb zero c then inr (Some c) else inl "commission_amount"%string  (* ge=0 *)
  end.

Definition errors_of {A} (r : string + A) : list string :=
  match r with inl f => [f] | inr _ => [] end.

(** Validation of a body against [Loan]: the model, or the list of the
    fields that failed. *)
Definition Loan_validate (b : LoanBody) : list string + Loan :=
  match validate_customer_id b, validate_amount b, validate_status b,
        validate_commission_amount b with
  | inr cid, inr a, inr st, inr c =>
      inr {| customer_id := cid; partner_id := body_partner_id b;
             amount := a; status := st;
             application_date := body_application_date b;
             funded_date := body_funded_date b; commission_amount := c |}
  | r1, r2, r3, r4 =>
      inl (errors_of r1 ++ errors_of r2 ++ errors_of r3 ++ errors_of r4)
  end.

(** ** The document store and the handler monad *)

Inductive DbOp :=
| FindOne (collection : string) (_id : oid)
| InsertOne (collection : string) (_id : oid).

(** The database handle [db]: the three collections, keyed by [_id],
    and the log of the operations performed on them. *)
Record Db := {
  customer : gmap oid document;
  partner : gmap oid document;
  loan : gmap oid Loan;
  log : list DbOp
}.

Definition add_log (op : DbOp) (db : Db) : Db :=
  {| customer := customer db; partner := partner db; loan := loan db;
     log := log db ++ [op] |}.

Inductive Exception :=
| HTTPException (status_code : Z) (detail : string)
| RequestValidationError (fields : list string)
| InvalidId
| TypeError
| ValueError
| OverflowError.

(** A computation over the store that returns or raises. *)
Definition M (A : Type) : Type := Db -> (Exception + A) * Db.

Definition ret {A} (a : A) : M A := fun db => (inr a, db).

Definition raise {A} (e : Exception) : M A := fun db => (inl e, db).

Definition bind {A B} (m : M A) (k : A -> M B) : M B :=
  fun db =>
    match m db with
    | (inr a, db') => k a db'
    | (inl e, db') => (inl e, db')
    end.

(** [try: m except Exception: h] *)
Definition try_except {A} (m : M A) (h : Exception -> M A) : M A :=
  fun db =>
    match m db with
    | (inr a, db') => (inr a, db')
    | (inl e, db') => h e db'
    end.

(** [if c: m] *)
Definition when (c : bool) (m : M unit) : M unit := if c then m else ret tt.

Declare Scope py_scope.
Delimit Scope py_scope with py.
Notation "x <- m ;; k" := (bind m (fun x => k))
  (at level 100, m at next level, right associativity) : py_scope.
Notation "m ;; k" := (bind m (fun _ => k))
  (at level 100, right associativity) : py_scope.

Open Scope py_scope.

(** [ObjectId(s)] inside the handler: raises [InvalidId]. *)
Definition new_ObjectId (s : string) : M oid :=
  match ObjectId s with
  | Some _id => ret _id
  | None => raise InvalidId
  end.

(** A document as [find_one] returns it: with its [_id]. *)
Definition with_id (_id : oid) (doc : document) : document :=
  <["_id"%string := VOid _id]> doc.

(** [db.customer.find_one({"_id": _id})] *)
Definition db_customer_find_one (_id : oid) : M (option document) :=
  fun db => (inr (with_id _id <$> customer db !! _id),
             add_log (FindOne "customer" _id) db).

(** [db.partner.find_one({"_id": _id})] *)
Definition db_partner_find_one (_id : oid) : M (option document) :=
  fun db => (inr (with_id _id <$> partner db !! _id),
             add_log (FindOne "partner" _id) db).

(** Modelled from the spec: [create_document] of the module [database],
    which is not among the sources.  "Inserts a record, returns its newly
    assigned unique identifier": the record is stored in the loan
    collection under an identifier no loan had before.  The store is
    taken to be reachable: the [StoreError] of an unreachable store is
    not part of this model, neither here nor in the two [find_one]. *)
Definition create_document (collection_name : string) (data : Loan) : M oid :=
  fun db =>
    let _id : oid := fresh (dom (loan db)) in
    (inr _id,
     add_log (InsertOne collection_name _id)
       {| customer := customer db; partner := partner db;
          loan := <[_id := data]> (loan db); log := log db |}).

(** Truth values of Python objects. *)
Definition str_truthy (s : string) : bool := negb (String.eqb s "").

Definition opt_str_truthy (s : option string) : bool :=
  match s with
  | Some s => str_truthy s
  | None => false
  end.

Definition doc_truthy (d : option document) : bool :=
  match d with
  | Some doc => negb (bool_decide (doc = ∅))
  | None => false
  end.

Definition date_truthy (d : option date) : bool :=
  match d with
  | Some _ => true          (* a date object is always true *)
  | None => false
  end.

Section Handler.

(** [float(s)] for a string [s], as Python reads it; [None] stands for
    [ValueError]. *)
Variable float_of_str : string -> option float.

(** [float(v)] for a value read from a document. *)
Definition py_float (v : value) : M float :=
  match v with
  | VFloat f => ret f
  | VInt z =>
      match of_Z z with
      | S754_infinity _ => raise OverflowError   (* int too large for a float *)
      | f => ret f
      end
  | VBool b => ret (if b then of_Z 1 else zero)
  | VStr s =>
      match float_of_str s with
      | Some f => ret f
      | None => raise ValueError
      end
  | VNull | VDate _ | VOid _ => raise TypeError
  end.

(** ** [create_loan] (main.py) *)

(** Lines 86-92: the check of the customer reference. *)
Definition check_customer_id (payload : Loan) : M unit :=
  when (str_truthy (customer_id payload))
    (try_except
       (_id <- new_ObjectId (customer_id payload) ;;
        customer <- db_customer_find_one _id ;;
        when (negb (doc_truthy customer))
          (raise (HTTPException 400 "Invalid customer_id")))
       (fun _ => raise (HTTPException 400 "Invalid customer_id format"))).

(** Lines 93-99: the check of the partner reference. *)
Definition check_partner_id (payload : Loan) : M unit :=
  when (opt_str_truthy (partner_id payload))
    (try_except
       (_id <- new_ObjectId (default ""%string (partner_id payload)) ;;
        partner <- db_partner_find_one _id ;;
        when (negb (doc_truthy partner))
          (raise (HTTPException 400 "Invalid partner_id")))
       (fun _ => raise (HTTPException 400 "Invalid partner_id format"))).

(** Lines 105-109: the commission rate of the referenced partner. *)
Definition fetch_rate (data : Loan) : M float :=
  if opt_str_truthy (partner_id data) then
    _id <- new_ObjectId (default ""%string (partner_id data)) ;;
    p <- db_partner_find_one _id ;;
    match p with
    | Some doc =>
        if doc_truthy p then
          match doc !! "commission_rate"%string with
          | Some v => r <- py_float v ;; ret (or_else r zero)
          | None => ret zero
          end
        else ret zero
    | None => ret zero
    end
  else ret zero.

(** Lines 101-116.  [today] is the value of [datetime.utcnow().date()]. *)
Definition create_loan (today : date) (payload : Loan) : M oid :=
  check_customer_id payload ;;
  check_partner_id payload ;;
  let data := model_dump payload in
  data <- (if LoanStatus_eqb (status data) funded then
             rate <- fetch_rate data ;;
             let commission := round2 (div (mul (amount data) rate) hundred) in
             let data := set_commission_amount data (Some commission) in
             if negb (date_truthy (funded_date data))
             then ret (set_funded_date data (Some today))
             else ret data
           else ret data) ;;
  loan_id <- create_document "loan" data ;;
  ret loan_id.

(** [POST /api/loans]: the body is validated against the schema before
    the handler runs; a body that fails is answered with the validation
    error and the handler is not called. *)
Definition post_api_loans (today : date) (body : LoanBody) : M oid :=
  match Loan_validate body with
  | inr payload => create_loan today payload
  | inl fields => raise (RequestValidationError fields)
  end.

End Handler.

(** ** Vocabulary of the statements *)

(** The customer (resp. partner) document that an identifier in text
    form names, if any. *)
Definition resolve_customer (db : Db) (s : string) : option document :=
  match ObjectId s with
  | Some _id => customer db !! _id
  | None => None
  end.

Definition resolve_partner (db : Db) (s : string) : option document :=
  match ObjectId s with
  | Some _id => partner db !! _id
  | None => None
  end.

(** Two handles hold the same collections (their logs may differ). *)
Definition same_collections (db db1 : Db) : Prop :=
  customer db1 = customer db /\ partner db1 = partner db /\ loan db1 = loan db.

(** The record handed to [create_document] for a payload, given the rate
    that was fetched: every field but the two derived ones is the
    payload's. *)
Definition derived_from (today : date) (payload : Loan) (rate : float)
    (rec : Loan) : Prop :=
  customer_id rec = customer_id payload /\
  partner_id rec = partner_id payload /\
  amount rec = amount payload /\
  status rec = status payload /\
  application_date rec = application_date payload /\
  commission_amount rec =
    Some (round2 (div (mul (amount payload) rate) hundred)) /\
  funded_date rec = Some (default today (funded_date payload)).

(** ** Sample data *)

Module Sample.

Definition today : date := 739194.

(** A reading of text as a number that accepts no text; the samples
    hold no text where a number is read. *)
Definition float_of_str (s : string) : option float := None.

Definition customer_ref : string := "507f1f77bcf86cd799439011".
Definition partner_ref : string := "507f1f77bcf86cd799439012".
Definition bare_partner_ref : string := "507f1f77bcf86cd799439013".
Definition unknown_ref : string := "507f1f77bcf86cd7994390ff".
Definition malformed_ref : string := "not-an-object-id".

Definition oid_of (s : string) : oid := default [] (ObjectId s).

Definition customer_doc : document :=
  {[ "first_name"%string := VStr "Ada"; "last_name"%string := VStr "Byron" ]}.

(** A partner with the default rate of the schema, 5.0. *)
Definition partner_doc : document :=
  {[ "name"%string := VStr "Northside Realty";
     "commission_rate"%string := VFloat (of_decimal 50 1) ]}.

(** A partner document without a [commission_rate] field. *)
Definition bare_partner_doc : document :=
  {[ "name"%string := VStr "Walk-in" ]}.

Definition db : Db :=
  {| customer := {[ oid_of customer_ref := customer_doc ]};
     partner := {[ oid_of partner_ref := partner_doc;
                   oid_of bare_partner_ref := bare_partner_doc ]};
     loan := ∅;
     log := [] |}.

Definition loan_of (cid : string) (pid : option string) (a : float)
    (st : LoanStatus) (fd : option date) (c : option float) : Loan :=
  {| customer_id := cid; partner_id := pid; amount := a; status := st;
     application_date := None; funded_date := fd; commission_amount := c |}.

(** Funded, 1000, referred by the partner at 5.0. *)
Definition funded_with_partner : Loan :=
  loan_of customer_ref (Some partner_ref) (of_Z 1000) funded None None.

(** Funded, 1000, no partner, funding date supplied. *)
Definition funded_no_partner : Loan :=
  loan_of customer_ref None (of_Z 1000) funded (Some 739000) None.

(** Funded, 1000, referred by the partner without a rate. *)
Definition funded_bare_partner : Loan :=
  loan_of customer_ref (Some bare_partner_ref) (of_Z 1000) funded None None.

(** Funded, infinite amount, no partner. *)
Definition funded_infinite : Loan :=
  loan_of customer_ref None inf funded None None.

(** Funded, infinite amount, referred by the partner without a rate. *)
Definition funded_infinite_bare_partner : Loan :=
  loan_of customer_ref (Some bare_partner_ref) inf funded None None.

(** Applied, with a commission and a funding date supplied. *)
Definition applied_with_commission : Loan :=
  loan_of customer_ref None (of_Z 1000) applied (Some 739000)
    (Some (of_Z 10)).

(** Applied, the customer reference empty. *)
Definition applied_empty_customer : Loan :=
  loan_of "" None (of_Z 1000) applied None None.

(** Applied, the customer reference well formed but naming no record. *)
Definition applied_unknown_customer : Loan :=
  loan_of unknown_ref None (of_Z 1000) applied None None.

(** Applied, the customer reference malformed. *)
Definition applied_malformed_customer : Loan :=
  loan_of malformed_ref None (of_Z 1000) applied None None.

Definition applied_unknown_partner : Loan :=
  loan_of customer_ref (Some unknown_ref) (of_Z 1000) applied None None.

Definition applied_malformed_partner : Loan :=
  loan_of customer_ref (Some malformed_ref) (of_Z 1000) applied None None.

Definition status_text (st : LoanStatus) : string :=
  match st with
  | applied => "applied"
  | approved => "approved"
  | funded => "funded"
  | rejected => "rejected"
  | closed => "closed"
  end.

(** The request body that spells a payload out. *)
Definition body_of (payload : Loan) : LoanBody :=
  {| body_customer_id := Some (customer_id payload);
     body_partner_id := partner_id payload;
     body_amount := Some (amount payload);
     body_status := Some (status_text (status payload));
     body_application_date := application_date payload;
     body_funded_date := funded_date payload;
     body_commission_amount := commission_amount payload |}.

(** The creation of a payload on the sample store. *)
Definition run (payload : Loan) : (Exception + oid) * Db :=
  create_loan float_of_str today payload db.

(** The identifier the store assigns to its first loan. *)
Definition first_id : oid := fresh (dom (loan db)).

(** A request body whose amount is zero. *)
Definition body_zero_amount : LoanBody :=
  {| body_customer_id := Some customer_ref; body_partner_id := None;
     body_amount := Some zero; body_status := Some "funded"%string;
     body_application_date := None; body_funded_date := None;
     body_commission_amount := None |}.

End Sample.

(** ** Serialization of documents ([serialize_doc], main.py 24-32) *)

(** [str(oid)] for an [ObjectId]: its bytes in lower-case hexadecimal. *)
Definition hexchar (n : N) : ascii :=
  if (n <? 10)%N then ascii_of_N (48 + n) else ascii_of_N (87 + n).

Definition hexlify (bs : list N) : list ascii :=
  flat_map (fun b => [hexchar (b / 16); hexchar (b mod 16)]) bs.

Definition ObjectId_str (o : oid) : string := string_of_list_ascii (hexlify o).

(** The exception of a dictionary access. *)
Inductive DictError := KeyError (key : string).

Section Serialize.

(** [datetime.datetime] and its [isoformat]. *)
Variable datetime : Type.
Variable isoformat : datetime -> string.

(** What a document read back from the store holds under a key: a value
    as before, or a [datetime]. *)
Inductive field :=
| Stored (v : value)
| Moment (t : datetime).

(** [str(x)] for the objects whose printing is not spelled out here. *)
Variable str_other : field -> string.

(** [str(x)] *)
Definition py_str (x : field) : string :=
  match x with
  | Stored (VOid o) => ObjectId_str o
  | Stored (VStr s) => s
  | _ => str_other x
  end.

(** Lines 29-31: the loop over [list(doc.items())]. *)
Definition render_datetimes (items : list (string * field))
    (doc : gmap string field) : gmap string field :=
  foldl (fun doc kv =>
           match kv.2 with
           | Moment t => <[kv.1 := Stored (VStr (isoformat t))]> doc
           | Stored _ => doc
           end) doc items.

(** [serialize_doc(doc)]; [doc] is [None] or a dictionary. *)
Definition serialize_doc (doc : option (gmap string field))
    : DictError + option (gmap string field) :=
  match doc with
  | None => inr None
  | Some d =>
      if bool_decide (d = ∅) then inr (Some d)
      else
        match d !! "_id"%string with
        | None => inl (KeyError "_id")
        | Some _id =>
            let d := <["id"%string := Stored (VStr (py_str _id))]>
                       (delete "_id"%string d) in
            inr (Some (render_datetimes (map_to_list d) d))
        end
  end.

(** [[serialize_doc(d) for d in docs]] (lines 55, 73 and 127). *)
Fixpoint serialize_docs (docs : list (gmap string field))
    : DictError + list (option (gmap string field)) :=
  match docs with
  | [] => inr []
  | d :: rest =>
      match serialize_doc (Some d) with
      | inl e => inl e
      | inr d' =>
          match serialize_docs rest with
          | inl e => inl e
          | inr rest' => inr (d' :: rest')
          end
      end
  end.

(** What the loop makes of one field. *)
Definition rendered (x : field) : field :=
  match x with
  | Moment t => Stored (VStr (isoformat t))
  | Stored v => Stored v
  end.

Definition is_moment (x : field) : bool :=
  match x with
  | Moment _ => true
  | Stored _ => false
  end.

End Serialize.

Arguments Stored {datetime} v.
Arguments Moment {datetime} t.
Arguments py_str {datetime} str_other x.
Arguments render_datetimes {datetime} isoformat items doc.
Arguments serialize_doc {datetime} isoformat str_other doc.
Arguments serialize_docs {datetime} isoformat str_other docs.
Arguments rendered {datetime} isoformat x.
Arguments is_moment {datetime} x.

(** A document of the store as Python reads it back. *)
Definition read_back {datetime} (doc : document) : gmap string (field datetime) :=
  Stored <$> doc.

(** ** The [Partner] schema (schemas.py 35-45) *)

Record Partner := {
  name : string;
  contact_name : option string;
  email : option string;
  phone : option string;
  commission_rate : float;
  notes : option string
}.

Record PartnerBody := {
  pbody_name : option string;
  pbody_contact_name : option string;
  pbody_email : option string;
  pbody_phone : option string;
  pbody_commission_rate : option float;
  pbody_notes : option string
}.

Definition validate_name (b : PartnerBody) : string + string :=
  match pbody_name b with
  | Some s => inr s                       (* Field(...): required *)
  | None => inl "name"%string
  end.

Definition validate_commission_rate (b : PartnerBody) : string + float :=
  match pbody_commission_rate b with
  | None => inr (of_decimal 50 1)                                 (* default 5.0 *)
  | Some r =>
      if leb zero r && leb r hundred then inr r                   (* ge=0, le=100 *)
      else inl "commission_rate"%string
  end.

Definition Partner_validate (b : PartnerBody) : list string + Partner :=
  match validate_name b, validate_commission_rate b with
  | inr n, inr r =>
      inr {| name := n; contact_name := pbody_contact_name b;
             email := pbody_email b; phone := pbody_phone b;
             commission_rate := r; notes := pbody_notes b |}
  | r1, r2 => inl (errors_of r1 ++ errors_of r2)
  end.

Definition opt_str_value (s : option string) : value :=
  match s with
  | Some s => VStr s
  | None => VNull
  end.

(** [model_dump] of a [Partner]: the dictionary of its six fields. *)
Definition Partner_model_dump (p : Partner) : document :=
  {[ "name"%string := VStr (name p);
     "contact_name"%string := opt_str_value (contact_name p);
     "email"%string := opt_str_value (email p);
     "phone"%string := opt_str_value (phone p);
     "commission_rate"%string := VFloat (commission_rate p);
     "notes"%string := opt_str_value (notes p) ]}.

(** ** More vocabulary *)

(** A number whose sign bit is clear: [+0.0], a positive finite float or
    [+inf]. *)
Definition sign_clear (x : float) : bool :=
  match x with
  | S754_zero false | S754_infinity false | S754_finite false _ _ => true
  | _ => false
  end.

(** The sign bit of a float. *)
Definition sign_bit (x : float) : bool :=
  match x with
  | S754_zero s | S754_infinity s | S754_finite s _ _ => s
  | S754_nan => false
  end.

(** The exact magnitude of a finite float, as a fraction [num / den]
    with [den > 0]. *)
Definition magnitude (x : float) : option (Z * Z) :=
  match x with
  | S754_zero _ => Some (0, 1)
  | S754_finite _ m e =>
      if 0 <=? e then Some (Z.pos m * 2 ^ e, 1) else Some (Z.pos m, 2 ^ (- e))
  | _ => None
  end.

(** [n] is the integer nearest to [num / den], and the even one of the
    two when [num / den] lies half way. *)
Definition nearest_even (num den n : Z) : Prop :=
  2 * Z.abs (num - n * den) <= den /\
  (2 * Z.abs (num - n * den) = den -> Z.even n = true).

(** The float that a count of cents reads as: the float nearest to
    [n / 100], with the sign [s]. *)
Definition of_cents (s : bool) (n : Z) : float :=
  match n with
  | Z.pos p => div (S754_finite s p 0) (S754_finite false 100 0)
  | _ => S754_zero s
  end.

(** The integer nearest to [num / den], the upper one on a tie. *)
Definition round_half_up (num den : Z) : Z := (2 * num + den) / (2 * den).

(** Following the words of the specification (4.2, 3b), on exact
    numbers: for an amount and a rate that are not negative,
    [amount * rate / 100] rounded to two decimal places by [round]
    (half up or half even); counted in cents, that is [amount * rate]
    rounded to an integer. *)
Definition decimal_commission (round : Z -> Z -> Z) (a r : float)
    : option float :=
  match magnitude a, magnitude r with
  | Some (n1, d1), Some (n2, d2) =>
      Some (of_cents false (round (n1 * n2) (d1 * d2)))
  | _, _ => None
  end.

(** Every byte of an identifier is a byte. *)
Definition bytes (o : oid) : Prop := Forall (fun b => (b < 256)%N) o.

(** ** More sample data *)

Module SampleDocs.

(** A naive date and time, and its ISO 8601 text to the second. *)
Record naive := { year : N; month : N; day : N; hour : N; minute : N; second : N }.

Definition digit (n : N) : ascii := ascii_of_N (48 + n mod 10).

Definition two (n : N) : string :=
  String (digit (n / 10)) (String (digit n) "").

Definition four (n : N) : string :=
  String (digit (n / 1000)) (String (digit (n / 100)) (two n)).

Definition isoformat (t : naive) : string :=
  (four (year t) ++ "-" ++ two (month t) ++ "-" ++ two (day t) ++ "T" ++
   two (hour t) ++ ":" ++ two (minute t) ++ ":" ++ two (second t))%string.

Definition str_other (x : field naive) : string := "<object>".

Definition created_at : naive :=
  {| year := 2024; month := 5; day := 17; hour := 9; minute := 30; second := 0 |}.

(** A customer as [find_one] or a listing reads it back. *)
Definition customer_read : gmap string (field naive) :=
  <["created_at"%string := Moment created_at]>
    (read_back (with_id (Sample.oid_of Sample.customer_ref) Sample.customer_doc)).

(** A document without [_id]. *)
Definition no_id_read : gmap string (field naive) :=
  {[ "first_name"%string := Stored (VStr "Ada") ]}.

(** A partner whose [commission_rate] is null. *)
Definition null_rate_ref : string := "507f1f77bcf86cd799439014".

Definition null_rate_doc : document :=
  {[ "name"%string := VStr "Legacy"; "commission_rate"%string := VNull ]}.

Definition db : Db :=
  {| customer := customer Sample.db;
     partner := <[Sample.oid_of null_rate_ref := null_rate_doc]> (partner Sample.db);
     loan := ∅;
     log := [] |}.

Definition funded_null_rate : Loan :=
  Sample.loan_of Sample.customer_ref (Some null_rate_ref) (of_Z 1000) funded
    None None.

Definition funded_unknown_partner : Loan :=
  Sample.loan_of Sample.customer_ref (Some Sample.unknown_ref) (of_Z 1000)
    funded None None.

Definition funded_unknown_both : Loan :=
  Sample.loan_of Sample.unknown_ref (Some Sample.unknown_ref) (of_Z 1000)
    funded None None.

Definition run (payload : Loan) : (Exception + oid) * Db :=
  create_loan Sample.float_of_str Sample.today payload db.

Definition partner_body : PartnerBody :=
  {| pbody_name := Some "Northside Realty"%string; pbody_contact_name := None;
     pbody_email := None; pbody_phone := None;
     pbody_commission_rate := Some (of_decimal 25 1); pbody_notes := None |}.

(** Funded, 1.50, referred by the partner at 5.0: 0.075 on exact
    numbers. *)
Definition funded_cents : Loan :=
  Sample.loan_of Sample.customer_ref (Some Sample.partner_ref)
    (of_decimal 15 1) funded None None.

Definition funded_empty_partner : Loan :=
  Sample.loan_of Sample.customer_ref (Some ""%string) (of_Z 1000) funded
    None None.

(** The model of [partner_body], its place in a store, and a funded
    request that refers to it. *)
Definition partner_model : Partner :=
  {| name := "Northside Realty"; contact_name := None; email := None;
     phone := None; commission_rate := of_decimal 25 1; notes := None |}.

Definition dumped_ref : string := "507f1f77bcf86cd799439015".

Definition db_dumped : Db :=
  {| customer := customer Sample.db;
     partner := {[ Sample.oid_of dumped_ref := Partner_model_dump partner_model ]};
     loan := ∅;
     log := [] |}.

Definition funded_dumped_partner : Loan :=
  Sample.loan_of Sample.customer_ref (Some dumped_ref) (of_Z 1000) funded
    None None.

Definition post (body : LoanBody) (db : Db) : (Exception + oid) * Db :=
  post_api_loans Sample.float_of_str Sample.today body db.

(** The customer as a listing shows it. *)
Definition customer_listed : gmap string (field naive) :=
  match serialize_doc isoformat str_other (Some customer_read) with
  | inr (Some d) => d
  | _ => ∅
  end.

End SampleDocs.

(** ** Floats: the facts the handler relies on *)

Lemma hundred_eq : hundred = S754_finite false 7036874417766400 (-46).
Proof. reflexivity. Qed.

Lemma truthy_false_zero x : truthy x = false -> exists s, x = S754_zero s.
Proof.
  unfold truthy, eqb, SFeqb, zero.
  destruct x as [s | s | | s m e]; simpl; try discriminate.
  - intros _. now exists s.
  - destruct s; discriminate.
  - destruct s; discriminate.
Qed.

Lemma or_else_zero_cases r :
  or_else r zero = r \/ (is_zero r = true /\ or_else r zero = zero).
Proof.
  unfold or_else. destruct (truthy r) eqn:E; [now left | right].
  destruct (truthy_false_zero _ E) as [s ->]. now split.
Qed.

Lemma or_else_zero_not_neg_zero r : r <> neg_zero -> or_else r zero = r.
Proof.
  intros Hr. unfold or_else. destruct (truthy r) eqn:E; [reflexivity |].
  destruct (truthy_false_zero _ E) as [[] ->]; [now destruct Hr | reflexivity].
Qed.

Lemma div_zero_hundred s : div (S754_zero s) hundred = S754_zero s.
Proof. rewrite hundred_eq. now destruct s. Qed.

Lemma mul_by_zero a s :
  mul a (S754_zero s) = S754_nan \/
  exists s', is_finite a = true /\ mul a (S754_zero s) = S754_zero s'.
Proof.
  destruct a as [sa | sa | | sa m e]; simpl; eauto.
Qed.

Lemma commission_rate_zero a s :
  round2 (div (mul a (S754_zero s)) hundred) = S754_nan \/
  exists s', is_finite a = true /\
             round2 (div (mul a (S754_zero s)) hundred) = S754_zero s'.
Proof.
  destruct (mul_by_zero a s) as [-> | (s' & Hf & ->)].
  - now left.
  - right. exists s'. now rewrite div_zero_hundred.
Qed.

Lemma mul_finite_zero a s :
  is_finite a = true ->
  exists s', mul a (S754_zero s) = S754_zero s' /\
             (ltb zero a = true -> s' = s).
Proof.
  destruct a as [sa | sa | | sa m e]; try discriminate; intros _.
  - exists (xorb sa s). split; [reflexivity | discriminate].
  - exists (xorb sa s). split; [reflexivity |].
    destruct sa; [discriminate | reflexivity].
Qed.

Lemma commission_finite_rate_zero a :
  is_finite a = true ->
  is_zero (round2 (div (mul a zero) hundred)) = true.
Proof.
  intros Ha. destruct (mul_finite_zero a false Ha) as (s' & E & _).
  unfold zero. rewrite E, div_zero_hundred. reflexivity.
Qed.

Lemma commission_positive_rate_zero a :
  is_finite a = true -> ltb zero a = true ->
  round2 (div (mul a zero) hundred) = zero.
Proof.
  intros Ha Hp. destruct (mul_finite_zero a false Ha) as (s' & E & Hs).
  unfold zero. rewrite E, div_zero_hundred, (Hs Hp). reflexivity.
Qed.

(** The rate [r or 0.0] gives the same commission as [r], as a number. *)
Lemma commission_or_else a r :
  same_number (round2 (div (mul a (or_else r zero)) hundred))
              (round2 (div (mul a r) hundred)).
Proof.
  destruct (or_else_zero_cases r) as [-> | [Hz ->]]; [now left |].
  destruct r as [s | | |]; try discriminate.
  destruct (commission_rate_zero a false) as [E1 | (s1 & _ & E1)];
    destruct (commission_rate_zero a s) as [E2 | (s2 & _ & E2)];
    unfold zero; rewrite E1, E2.
  - now left.
  - exfalso. destruct a; simpl in *; discriminate.
  - exfalso. destruct a; simpl in *; discriminate.
  - right. now split.
Qed.

(** ** Floats: what [round(x, 2)] returns *)

Lemma div_half_even_nearest a b :
  0 < b -> nearest_even a b (div_half_even a b).
Proof.
  intros Hb. unfold nearest_even, div_half_even.
  assert (Hbne : b <> 0) by lia.
  pose proof (Z.div_mod a b Hbne) as Hdm.
  pose proof (Z.mod_pos_bound a b Hb) as Hr.
  set (q := a / b) in *. set (r := a mod b) in *.
  assert (H0 : a - q * b = r) by lia.
  assert (H1 : a - (q + 1) * b = r - b) by lia.
  destruct (2 * r ?= b) eqn:Hc.
  - apply Z.compare_eq in Hc. destruct (Z.even q) eqn:He.
    + rewrite H0. split; [lia | intros _; exact He].
    + rewrite H1. split; [lia |]. intros _.
      rewrite Z.add_1_r, Z.even_succ, <- Z.negb_even, He. reflexivity.
  - change (2 * r < b) in Hc. rewrite H0.
    split; [lia | intros Htie; exfalso; lia].
  - change (2 * r > b) in Hc. rewrite H1.
    split; [lia | intros Htie; exfalso; lia].
Qed.

(** [round(x, 2)] of a finite float [x]: the float that reads the count
    of cents nearest to [x] (ties on the exact value of [x] to the even
    count); a float without a fractional part is kept as it is. *)
Lemma round2_two_places x num den :
  magnitude x = Some (num, den) ->
  exists n,
    nearest_even (100 * num) den n /\
    (round2 x = of_cents (sign_bit x) n \/ (den = 1 /\ round2 x = x)).
Proof.
  destruct x as [s | s | | s m e]; try discriminate; simpl.
  - intros [= <- <-]. exists 0. split; [split; simpl; lia | now left].
  - destruct (0 <=? e) eqn:He; intros [= <- <-].
    + exists (100 * (Z.pos m * 2 ^ e)).
      split; [split; lia | right; split; reflexivity].
    + apply Z.leb_gt in He.
      exists (div_half_even (Z.pos m * 100) (2 ^ (- e))). split.
      * rewrite (Z.mul_comm 100). apply div_half_even_nearest.
        apply Z.pow_pos_nonneg; lia.
      * left. now destruct (div_half_even (Z.pos m * 100) (2 ^ (- e))).
Qed.

(** ** Truth values and identifiers *)

Lemma str_truthy_true s : str_truthy s = true <-> s <> ""%string.
Proof.
  unfold str_truthy. destruct s; simpl; split; intros H; try easy.
Qed.

Lemma ObjectId_truthy s _id : ObjectId s = Some _id -> str_truthy s = true.
Proof. destruct s; [discriminate | reflexivity]. Qed.

Lemma doc_truthy_with_id _id doc : doc_truthy (Some (with_id _id doc)) = true.
Proof.
  unfold doc_truthy, with_id. rewrite bool_decide_eq_false_2; [reflexivity |].
  apply insert_non_empty.
Qed.

Lemma with_id_commission_rate _id (doc : document) :
  with_id _id doc !! "commission_rate"%string = doc !! "commission_rate"%string.
Proof. unfold with_id. now rewrite lookup_insert_ne. Qed.

Lemma same_collections_refl db : same_collections db db.
Proof. now repeat split. Qed.

Lemma same_collections_add_log op db : same_collections db (add_log op db).
Proof. now repeat split. Qed.

Lemma same_collections_trans db1 db2 db3 :
  same_collections db1 db2 -> same_collections db2 db3 ->
  same_collections db1 db3.
Proof.
  intros (? & ? & ?) (? & ? & ?). repeat split; congruence.
Qed.

(** ** The reference checks *)

(** The customer check, run on a store: it passes (after at most one
    lookup) exactly when the identifier is empty or names a customer;
    every failure, malformed or not found, leaves through the handler of
    the [try] with the same message. *)
Lemma check_customer_id_run payload db :
  check_customer_id payload db =
  if str_truthy (customer_id payload) then
    match ObjectId (customer_id payload) with
    | Some _id =>
        match customer db !! _id with
        | Some _ => (inr tt, add_log (FindOne "customer" _id) db)
        | None => (inl (HTTPException 400 "Invalid customer_id format"),
                   add_log (FindOne "customer" _id) db)
        end
    | None => (inl (HTTPException 400 "Invalid customer_id format"), db)
    end
  else (inr tt, db).
Proof.
  unfold check_customer_id, when.
  destruct (str_truthy (customer_id payload)); [| reflexivity].
  unfold try_except, bind, new_ObjectId, db_customer_find_one.
  destruct (ObjectId (customer_id payload)) as [_id |]; [| reflexivity].
  unfold ret at 1.
  destruct (customer db !! _id) as [doc |].
  - change (with_id _id <$> Some doc) with (Some (with_id _id doc)).
    rewrite doc_truthy_with_id. reflexivity.
  - reflexivity.
Qed.

Lemma check_partner_id_run payload db :
  check_partner_id payload db =
  match partner_id payload with
  | Some pid =>
      if str_truthy pid then
        match ObjectId pid with
        | Some _id =>
            match partner db !! _id with
            | Some _ => (inr tt, add_log (FindOne "partner" _id) db)
            | None => (inl (HTTPException 400 "Invalid partner_id format"),
                       add_log (FindOne "partner" _id) db)
            end
        | None => (inl (HTTPException 400 "Invalid partner_id format"), db)
        end
      else (inr tt, db)
  | None => (inr tt, db)
  end.
Proof.
  unfold check_partner_id, when.
  destruct (partner_id payload) as [pid |]; [| reflexivity]. simpl.
  destruct (str_truthy pid); [| reflexivity].
  unfold try_except, bind, new_ObjectId, db_partner_find_one.
  destruct (ObjectId pid) as [_id |]; [| reflexivity].
  unfold ret at 1.
  destruct (partner db !! _id) as [doc |].
  - change (with_id _id <$> Some doc) with (Some (with_id _id doc)).
    rewrite doc_truthy_with_id. reflexivity.
  - reflexivity.
Qed.

Lemma check_customer_id_frame payload db r db1 :
  check_customer_id payload db = (r, db1) -> same_collections db db1.
Proof.
  rewrite check_customer_id_run. intros H.
  repeat case_match; simplify_eq;
    auto using same_collections_refl, same_collections_add_log.
Qed.

Lemma check_partner_id_frame payload db r db1 :
  check_partner_id payload db = (r, db1) -> same_collections db db1.
Proof.
  rewrite check_partner_id_run. intros H.
  repeat case_match; simplify_eq;
    auto using same_collections_refl, same_collections_add_log.
Qed.

Section Properties.

Variable fos : string -> option float.

(** ** The commission rate *)

Lemma py_float_pure v db : snd (py_float fos v db) = db.
Proof.
  destruct v; simpl; try reflexivity.
  - now destruct (of_Z z).
  - now destruct (fos s).
Qed.

Lemma py_float_ext v db db1 : fst (py_float fos v db1) = fst (py_float fos v db).
Proof.
  destruct v; simpl; try reflexivity.
  - now destruct (of_Z z).
  - now destruct (fos s).
Qed.

(** The rate lookup, run on a store. *)
Lemma fetch_rate_run data db :
  fetch_rate fos data db =
  match partner_id data with
  | Some pid =>
      if str_truthy pid then
        match ObjectId pid with
        | Some _id =>
            let db1 := add_log (FindOne "partner" _id) db in
            match partner db !! _id with
            | Some doc =>
                match doc !! "commission_rate"%string with
                | Some v =>
                    match fst (py_float fos v db1) with
                    | inr r => (inr (or_else r zero), db1)
                    | inl e => (inl e, db1)
                    end
                | None => (inr zero, db1)
                end
            | None => (inr zero, db1)
            end
        | None => (inl InvalidId, db)
        end
      else (inr zero, db)
  | None => (inr zero, db)
  end.
Proof.
  unfold fetch_rate.
  destruct (partner_id data) as [pid |]; [| reflexivity]. simpl.
  destruct (str_truthy pid); [| reflexivity].
  unfold bind, new_ObjectId, db_partner_find_one.
  destruct (ObjectId pid) as [_id |]; [| reflexivity].
  unfold ret at 1.
  destruct (partner db !! _id) as [doc |]; [| reflexivity].
  change (with_id _id <$> Some doc) with (Some (with_id _id doc)).
  rewrite doc_truthy_with_id, with_id_commission_rate.
  destruct (doc !! "commission_rate"%string) as [v |]; [| reflexivity].
  pose proof (py_float_pure v (add_log (FindOne "partner" _id) db)) as Hs.
  destruct (py_float fos v (add_log (FindOne "partner" _id) db)) as [[e | r] db2].
  all: simpl in Hs; subst db2; reflexivity.
Qed.

Lemma fetch_rate_frame data db r db1 :
  fetch_rate fos data db = (r, db1) -> same_collections db db1.
Proof.
  rewrite fetch_rate_run. cbv zeta. intros H.
  repeat case_match; simplify_eq;
    auto using same_collections_refl, same_collections_add_log.
Qed.

(** The rate depends on the partner collection only. *)
Lemma fetch_rate_ext data db db1 :
  partner db1 = partner db ->
  fst (fetch_rate fos data db1) = fst (fetch_rate fos data db).
Proof.
  intros Hp. rewrite !fetch_rate_run, Hp.
  destruct (partner_id data) as [pid |]; [| reflexivity].
  destruct (str_truthy pid); [| reflexivity].
  destruct (ObjectId pid) as [_id |]; [| reflexivity]. cbv zeta.
  destruct (partner db !! _id) as [doc |]; [| reflexivity].
  destruct (doc !! "commission_rate"%string) as [v |]; [| reflexivity].
  rewrite (py_float_ext v (add_log (FindOne "partner" _id) db)
             (add_log (FindOne "partner" _id) db1)).
  now destruct (fst (py_float fos v (add_log (FindOne "partner" _id) db))).
Qed.

Lemma fetch_rate_no_partner data db :
  partner_id data = None -> fst (fetch_rate fos data db) = inr zero.
Proof. intros H. now rewrite fetch_rate_run, H. Qed.

Lemma fetch_rate_float data db pid p r :
  partner_id data = Some pid ->
  resolve_partner db pid = Some p ->
  p !! "commission_rate"%string = Some (VFloat r) ->
  fst (fetch_rate fos data db) = inr (or_else r zero).
Proof.
  unfold resolve_partner. intros Hpid Hres Hr. rewrite fetch_rate_run, Hpid.
  destruct (ObjectId pid) as [_id |] eqn:Hid; [| discriminate].
  rewrite (ObjectId_truthy _ _ Hid). cbv zeta. rewrite Hres, Hr. reflexivity.
Qed.

Lemma fetch_rate_no_field data db pid p :
  partner_id data = Some pid ->
  resolve_partner db pid = Some p ->
  p !! "commission_rate"%string = None ->
  fst (fetch_rate fos data db) = inr zero.
Proof.
  unfold resolve_partner. intros Hpid Hres Hr. rewrite fetch_rate_run, Hpid.
  destruct (ObjectId pid) as [_id |] eqn:Hid; [| discriminate].
  rewrite (ObjectId_truthy _ _ Hid). cbv zeta. rewrite Hres, Hr. reflexivity.
Qed.

(** ** [create_loan], run on a store *)

(** What a successful creation did: both checks passed, the record was
    inserted under a fresh identifier, and it is the payload itself
    unless the status is funded. *)
Lemma create_loan_inv today payload db loan_id db' :
  create_loan fos today payload db = (inr loan_id, db') ->
  fst (check_customer_id payload db) = inr tt /\
  loan db !! loan_id = None /\
  customer db' = customer db /\ partner db' = partner db /\
  exists rec,
    loan db' = <[loan_id := rec]> (loan db) /\
    (status payload <> funded -> rec = payload) /\
    (status payload = funded ->
     exists rate, fst (fetch_rate fos payload db) = inr rate /\
                  derived_from today payload rate rec).
Proof.
  unfold create_loan, bind, model_dump.
  destruct (check_customer_id payload db) as [[e | []] db1] eqn:E1;
    [discriminate |].
  destruct (check_partner_id payload db1) as [[e | []] db2] eqn:E2;
    [discriminate |].
  pose proof (same_collections_trans _ _ _
                (check_customer_id_frame _ _ _ _ E1)
                (check_partner_id_frame _ _ _ _ E2)) as (Hc & Hp & Hl).
  assert (Hfresh : forall db3, same_collections db2 db3 ->
            loan db !! (fresh (dom (loan db3)) : oid) = None).
  { intros db3 (_ & _ & Hl3). rewrite Hl3, Hl.
    apply not_elem_of_dom, is_fresh. }
  destruct (LoanStatus_eqb (status payload) funded) eqn:Est.
  - destruct (fetch_rate fos payload db2) as [[e | rate] db3] eqn:E3;
      [discriminate |].
    pose proof (fetch_rate_frame _ _ _ _ E3) as Hf3.
    pose proof Hf3 as (Hc3 & Hp3 & Hl3).
    assert (Hrate : fst (fetch_rate fos payload db) = inr rate).
    { rewrite <- (fetch_rate_ext payload db db2 Hp), E3. reflexivity. }
    destruct (date_truthy (funded_date (set_commission_amount payload
                (Some (round2 (div (mul (amount payload) rate) hundred))))))
      eqn:Ed; intros H;
      cbv beta iota zeta delta [negb ret create_document] in H;
      simplify_eq; simpl.
    + split; [reflexivity |]. split; [now apply Hfresh |].
      split; [congruence |]. split; [congruence |].
      eexists. split; [rewrite Hl3, Hl; reflexivity |].
      split; [intros Hne; destruct (status payload); easy |].
      intros _. exists rate. split; [exact Hrate |].
      repeat split; simpl.
      simpl in Ed. destruct (funded_date payload); [reflexivity | discriminate].
    + split; [reflexivity |]. split; [now apply Hfresh |].
      split; [congruence |]. split; [congruence |].
      eexists. split; [rewrite Hl3, Hl; reflexivity |].
      split; [intros Hne; destruct (status payload); easy |].
      intros _. exists rate. split; [exact Hrate |].
      repeat split; simpl.
      simpl in Ed. destruct (funded_date payload); [discriminate | reflexivity].
  - intros H. cbv beta iota zeta delta [ret create_document] in H.
    simplify_eq. simpl.
    split; [reflexivity |].
    split; [apply (Hfresh db2), same_collections_refl |].
    split; [congruence |]. split; [congruence |].
    exists payload. split; [now rewrite Hl |].
    split; [reflexivity |].
    intros Hf. rewrite Hf in Est. discriminate.
Qed.

(** A successful creation stores a record under the identifier it returns. *)
Lemma create_loan_stored today payload db loan_id db' :
  create_loan fos today payload db = (inr loan_id, db') ->
  exists rec,
    loan db' !! loan_id = Some rec /\
    (status payload <> funded -> rec = payload) /\
    (status payload = funded ->
     exists rate, fst (fetch_rate fos payload db) = inr rate /\
                  derived_from today payload rate rec).
Proof.
  intros H.
  destruct (create_loan_inv _ _ _ _ _ H) as (_ & _ & _ & _ & rec & Hl & Hrec).
  exists rec. split; [| exact Hrec]. rewrite Hl. apply lookup_insert_eq.
Qed.

(** When both references pass their check and the rate can be read, the
    creation succeeds. *)
Lemma create_loan_succeeds today payload db :
  customer_id payload = ""%string \/
    is_Some (resolve_customer db (customer_id payload)) ->
  (forall pid, partner_id payload = Some pid ->
     pid = ""%string \/ is_Some (resolve_partner db pid)) ->
  (status payload = funded ->
     exists rate, fst (fetch_rate fos payload db) = inr rate) ->
  exists loan_id db', create_loan fos today payload db = (inr loan_id, db').
Proof.
  intros Hcust Hpart Hrate.
  unfold create_loan, bind, model_dump.
  destruct (check_customer_id payload db) as [[e | []] db1] eqn:E1.
  { exfalso. rewrite check_customer_id_run in E1.
    unfold resolve_customer in Hcust.
    destruct Hcust as [He | [doc Hdoc]]; [rewrite He in E1; discriminate |].
    destruct (ObjectId (customer_id payload)) as [_id |] eqn:Hid;
      [| discriminate].
    rewrite (ObjectId_truthy _ _ Hid), Hdoc in E1. discriminate. }
  pose proof (check_customer_id_frame _ _ _ _ E1) as (_ & Hp1 & _).
  destruct (check_partner_id payload db1) as [[e | []] db2] eqn:E2.
  { exfalso. rewrite check_partner_id_run in E2.
    destruct (partner_id payload) as [pid |]; [| discriminate].
    unfold resolve_partner in Hpart.
    destruct (Hpart pid eq_refl) as [He | [doc Hdoc]];
      [rewrite He in E2; discriminate |].
    destruct (ObjectId pid) as [_id |] eqn:Hid; [| discriminate].
    rewrite (ObjectId_truthy _ _ Hid), Hp1, Hdoc in E2. discriminate. }
  pose proof (check_partner_id_frame _ _ _ _ E2) as (_ & Hp2 & _).
  destruct (LoanStatus_eqb (status payload) funded) eqn:Est.
  - destruct Hrate as [rate Hrate]; [now destruct (status payload) |].
    rewrite <- (fetch_rate_ext payload db db2) in Hrate by congruence.
    destruct (fetch_rate fos payload db2) as [[e | rate'] db3];
      [discriminate |].
    match goal with
    | |- context [if ?c then _ else _] => destruct c
    end; unfold ret, create_document; eauto.
  - unfold ret, create_document; eauto.
Qed.

(** A customer reference that is present and names no customer stops
    the creation with status 400, whatever the rest of the payload. *)
Lemma create_loan_unknown_customer today payload db :
  customer_id payload <> ""%string ->
  resolve_customer db (customer_id payload) = None ->
  exists db',
    create_loan fos today payload db =
      (inl (HTTPException 400 "Invalid customer_id format"), db') /\
    same_collections db db'.
Proof.
  intros Hne Hres. apply str_truthy_true in Hne.
  unfold create_loan, bind. rewrite check_customer_id_run, Hne.
  unfold resolve_customer in Hres.
  destruct (ObjectId (customer_id payload)) as [_id |].
  - rewrite Hres. eauto using same_collections_add_log.
  - eauto using same_collections_refl.
Qed.

(** The supplied commission plays no part in a funded creation. *)
Lemma create_loan_funded_ignores_commission today payload supplied db :
  status payload = funded ->
  create_loan fos today (set_commission_amount payload supplied) db =
  create_loan fos today payload db.
Proof.
  intros Hst. unfold create_loan, model_dump. simpl status. rewrite Hst.
  reflexivity.
Qed.

(** ** The schema *)

Lemma leb_zero_not_positive a : leb a zero = true -> ltb zero a = false.
Proof.
  destruct a as [s | s | | s m e]; try reflexivity; try discriminate.
  - destruct s; [reflexivity | discriminate].
  - destruct s; [reflexivity | discriminate].
Qed.

Lemma Loan_validate_amount_error body :
  validate_amount body = inl "amount"%string ->
  exists fields, Loan_validate body = inl fields /\ "amount"%string ∈ fields.
Proof.
  intros Ha. unfold Loan_validate. rewrite Ha.
  destruct (validate_customer_id body); eexists; (split; [reflexivity |]);
    simpl; set_solver.
Qed.

(** ** The properties of the specification *)

(** C1, amended. A loan created with status funded whose partner
    reference names a stored partner carrying the rate [r] is stored
    with the commission [round(q, 2)], where [q] is the float quotient
    [(amount * r) / 100.0] ([r] replaced by [0.0] when it is a zero):
    the float that reads the count of cents nearest to [q] itself, ties
    on the exact value of [q] to the even count (a quotient without
    fractional part is kept).  It is the same number as
    [round(amount * r / 100, 2)] computed on floats with [r] itself, and
    with amount 1000 and rate 5.0 it is 50.0. *)
Theorem C1_commission_rounds_float_quotient
    today payload db loan_id db' pid p r :
  create_loan fos today payload db = (inr loan_id, db') ->
  status payload = funded ->
  partner_id payload = Some pid ->
  resolve_partner db pid = Some p ->
  p !! "commission_rate"%string = Some (VFloat r) ->
  exists rec c q,
    loan db' !! loan_id = Some rec /\
    commission_amount rec = Some c /\
    q = div (mul (amount payload) (or_else r zero)) hundred /\
    c = round2 q /\
    (forall num den, magnitude q = Some (num, den) ->
       exists n, nearest_even (100 * num) den n /\
                 (c = of_cents (sign_bit q) n \/ (den = 1 /\ c = q))) /\
    same_number c (round2 (div (mul (amount payload) r) hundred)) /\
    (r <> neg_zero -> q = div (mul (amount payload) r) hundred) /\
    (amount payload = of_Z 1000 -> r = of_decimal 50 1 ->
     c = of_decimal 5000 2).
Proof.
  intros Hrun Hst Hpid Hres Hr.
  destruct (create_loan_stored _ _ _ _ _ Hrun) as (rec & Hrec & _ & Hf).
  destruct (Hf Hst) as (rate & Hrate & Hd).
  rewrite (fetch_rate_float _ _ _ _ _ Hpid Hres Hr) in Hrate.
  injection Hrate as <-.
  destruct Hd as (_ & _ & _ & _ & _ & Hc & _).
  exists rec, (round2 (div (mul (amount payload) (or_else r zero)) hundred)),
    (div (mul (amount payload) (or_else r zero)) hundred).
  split; [exact Hrec |]. split; [exact Hc |].
  split; [reflexivity |]. split; [reflexivity |].
  split; [intros num den Hm; exact (round2_two_places _ _ _ Hm) |].
  split; [apply commission_or_else |].
  split.
  - intros Hnz. now rewrite or_else_zero_not_neg_zero.
  - intros -> ->. reflexivity.
Qed.

(** C2, amended. The stored commission is populated exactly when the
    loan was created with status funded or the caller supplied a
    commission. *)
Theorem C2_commission_populated_iff today payload db loan_id db' :
  create_loan fos today payload db = (inr loan_id, db') ->
  exists rec,
    loan db' !! loan_id = Some rec /\
    (is_Some (commission_amount rec) <->
     status payload = funded \/ is_Some (commission_amount payload)).
Proof.
  intros Hrun.
  destruct (create_loan_stored _ _ _ _ _ Hrun) as (rec & Hrec & Hnf & Hf).
  exists rec. split; [exact Hrec |].
  destruct (decide (status payload = funded)) as [Hst | Hst].
  - destruct (Hf Hst) as (rate & _ & (_ & _ & _ & _ & _ & Hc & _)).
    rewrite Hc. split; [now left | eauto].
  - rewrite (Hnf Hst). split; [now right |].
    intros [? | ?]; [contradiction | assumption].
Qed.

(** C3, amended. A creation whose customer reference is not empty and
    names no stored customer fails with status 400, whatever the other
    fields are; it returns no identifier and stores no loan. *)
Theorem C3_unknown_customer_rejected today payload db :
  customer_id payload <> ""%string ->
  resolve_customer db (customer_id payload) = None ->
  exists detail db',
    create_loan fos today payload db = (inl (HTTPException 400 detail), db') /\
    loan db' = loan db.
Proof.
  intros Hne Hres.
  destruct (create_loan_unknown_customer today payload db Hne Hres)
    as (db' & Hrun & _ & _ & Hl).
  eauto.
Qed.

(** C5. A loan created with a status other than funded is stored with
    the commission and the funding date of the request, absent when
    they were absent. *)
Theorem C5_not_funded_passes_through today payload db loan_id db' :
  create_loan fos today payload db = (inr loan_id, db') ->
  status payload <> funded ->
  exists rec,
    loan db' !! loan_id = Some rec /\
    commission_amount rec = commission_amount payload /\
    funded_date rec = funded_date payload.
Proof.
  intros Hrun Hst.
  destruct (create_loan_stored _ _ _ _ _ Hrun) as (rec & Hrec & Hnf & _).
  exists rec. rewrite (Hnf Hst) in *. auto.
Qed.

(** C6. A loan created with status funded and a funding date in the
    request is stored with that date. *)
Theorem C6_supplied_funded_date_kept today payload db loan_id db' d :
  create_loan fos today payload db = (inr loan_id, db') ->
  status payload = funded ->
  funded_date payload = Some d ->
  exists rec, loan db' !! loan_id = Some rec /\ funded_date rec = Some d.
Proof.
  intros Hrun Hst Hd.
  destruct (create_loan_stored _ _ _ _ _ Hrun) as (rec & Hrec & _ & Hf).
  destruct (Hf Hst) as (rate & _ & (_ & _ & _ & _ & _ & _ & Hfd)).
  exists rec. split; [exact Hrec |]. now rewrite Hfd, Hd.
Qed.

(** C7, amended. A loan created with status funded, no partner and a
    finite amount is stored with commission zero; for a positive amount
    it is the float 0.0. *)
Theorem C7_no_partner_zero_commission today payload db loan_id db' :
  create_loan fos today payload db = (inr loan_id, db') ->
  status payload = funded ->
  partner_id payload = None ->
  is_finite (amount payload) = true ->
  exists rec c,
    loan db' !! loan_id = Some rec /\
    commission_amount rec = Some c /\
    same_number c zero /\
    (ltb zero (amount payload) = true -> c = zero).
Proof.
  intros Hrun Hst Hpid Hfin.
  destruct (create_loan_stored _ _ _ _ _ Hrun) as (rec & Hrec & _ & Hf).
  destruct (Hf Hst) as (rate & Hrate & (_ & _ & _ & _ & _ & Hc & _)).
  rewrite (fetch_rate_no_partner _ _ Hpid) in Hrate. injection Hrate as <-.
  exists rec, (round2 (div (mul (amount payload) zero) hundred)).
  split; [exact Hrec |]. split; [exact Hc |]. split.
  - right. split; [now apply commission_finite_rate_zero | reflexivity].
  - now apply commission_positive_rate_zero.
Qed.

(** C8, amended. When the partner reference of a funded loan names a
    stored partner without a [commission_rate] field, the creation
    succeeds and the commission is computed with rate 0; it is zero
    whenever the amount is finite. *)
Theorem C8_partner_without_rate today payload db pid p :
  status payload = funded ->
  customer_id payload = ""%string \/
    is_Some (resolve_customer db (customer_id payload)) ->
  partner_id payload = Some pid ->
  resolve_partner db pid = Some p ->
  p !! "commission_rate"%string = None ->
  exists loan_id db' rec c,
    create_loan fos today payload db = (inr loan_id, db') /\
    loan db' !! loan_id = Some rec /\
    commission_amount rec = Some c /\
    c = round2 (div (mul (amount payload) zero) hundred) /\
    (is_finite (amount payload) = true -> same_number c zero).
Proof.
  intros Hst Hcust Hpid Hres Hr.
  pose proof (fetch_rate_no_field _ _ _ _ Hpid Hres Hr) as Hzero.
  destruct (create_loan_succeeds today payload db Hcust) as (loan_id & db' & Hrun).
  { intros pid' Hpid'. rewrite Hpid in Hpid'. injection Hpid' as <-.
    right. rewrite Hres. eauto. }
  { intros _. eauto. }
  destruct (create_loan_stored _ _ _ _ _ Hrun) as (rec & Hrec & _ & Hf).
  destruct (Hf Hst) as (rate & Hrate & (_ & _ & _ & _ & _ & Hc & _)).
  rewrite Hzero in Hrate. injection Hrate as <-.
  exists loan_id, db', rec, (round2 (div (mul (amount payload) zero) hundred)).
  repeat (split; [assumption || reflexivity |]).
  intros Hfin. right.
  split; [now apply commission_finite_rate_zero | reflexivity].
Qed.

(** C9. A body whose amount is zero or negative is rejected by the
    schema with a validation error that names the amount; the handler
    does not run: the store is left as it was, its log included, so no
    lookup was made and no record stored. *)
Theorem C9_non_positive_amount_rejected today body db a :
  body_amount body = Some a ->
  leb a zero = true ->
  exists fields,
    post_api_loans fos today body db =
      (inl (RequestValidationError fields), db) /\
    "amount"%string ∈ fields.
Proof.
  intros Ha Hle.
  destruct (Loan_validate_amount_error body) as (fields & Hv & Hin).
  { unfold validate_amount. now rewrite Ha, (leb_zero_not_positive _ Hle). }
  exists fields. split; [| exact Hin].
  unfold post_api_loans. now rewrite Hv.
Qed.

(** C10. In a creation with status funded the commission of the request
    is ignored: whatever was supplied, the outcome is the same, and the
    stored commission is [round(amount * rate / 100, 2)] for the rate
    just fetched. *)
Theorem C10_supplied_commission_ignored
    today payload db loan_id db' supplied :
  create_loan fos today payload db = (inr loan_id, db') ->
  status payload = funded ->
  create_loan fos today (set_commission_amount payload supplied) db =
    (inr loan_id, db') /\
  exists rec rate,
    loan db' !! loan_id = Some rec /\
    fst (fetch_rate fos payload db) = inr rate /\
    commission_amount rec =
      Some (round2 (div (mul (amount payload) rate) hundred)).
Proof.
  intros Hrun Hst. split.
  - now rewrite create_loan_funded_ignores_commission.
  - destruct (create_loan_stored _ _ _ _ _ Hrun) as (rec & Hrec & _ & Hf).
    destruct (Hf Hst) as (rate & Hrate & (_ & _ & _ & _ & _ & Hc & _)).
    eauto.
Qed.

End Properties.

(** ** The properties on the sample data *)

(** C1, as stated, fails on exact numbers: the schema accepts the
    amount 1.5; at the rate 5.0 the commission is exactly 0.075, which
    rounds to 0.08 half up and half even alike; the float quotient lies
    just below 0.075 and the loan is stored with 0.07. *)
Lemma C1_counterexample :
  Loan_validate (Sample.body_of SampleDocs.funded_cents)
    = inr SampleDocs.funded_cents /\
  resolve_partner Sample.db Sample.partner_ref = Some Sample.partner_doc /\
  Sample.partner_doc !! "commission_rate"%string
    = Some (VFloat (of_decimal 50 1)) /\
  decimal_commission round_half_up (of_decimal 15 1) (of_decimal 50 1)
    = Some (of_decimal 8 2) /\
  decimal_commission div_half_even (of_decimal 15 1) (of_decimal 50 1)
    = Some (of_decimal 8 2) /\
  exists db' rec,
    Sample.run SampleDocs.funded_cents = (inr Sample.first_id, db') /\
    loan db' !! Sample.first_id = Some rec /\
    commission_amount rec = Some (of_decimal 7 2) /\
    ~ same_number (of_decimal 7 2) (of_decimal 8 2).
Proof.
  split; [vm_compute; reflexivity |].
  split; [vm_compute; reflexivity |].
  split; [vm_compute; reflexivity |].
  split; [vm_compute; reflexivity |].
  split; [vm_compute; reflexivity |].
  exists (snd (Sample.run SampleDocs.funded_cents)).
  eexists. split; [vm_compute; reflexivity |].
  split; [vm_compute; reflexivity |].
  split; [vm_compute; reflexivity |].
  intros [H | [H _]]; vm_compute in H; discriminate H.
Qed.

Lemma C1_witness :
  exists rec q,
    loan (snd (Sample.run SampleDocs.funded_cents)) !! Sample.first_id
      = Some rec /\
    q = div (mul (of_decimal 15 1) (of_decimal 50 1)) hundred /\
    magnitude q = Some (5404319552844595, 2 ^ 56) /\
    commission_amount rec = Some (of_cents false 7) /\
    nearest_even (100 * 5404319552844595) (2 ^ 56) 7.
Proof.
  destruct (C1_commission_rounds_float_quotient Sample.float_of_str
              Sample.today SampleDocs.funded_cents Sample.db Sample.first_id
              (snd (Sample.run SampleDocs.funded_cents))
              Sample.partner_ref Sample.partner_doc (of_decimal 50 1))
    as (rec & c & q & Hrec & Hc & Hq & Hround & _);
    [vm_compute; reflexivity .. |].
  exists rec, q. split; [exact Hrec |]. split; [exact Hq |].
  assert (Hm : magnitude q = Some (5404319552844595, 2 ^ 56))
    by (rewrite Hq; vm_compute; reflexivity).
  split; [exact Hm |].
  split; [rewrite Hc, Hround, Hq; vm_compute; reflexivity |].
  split; vm_compute; [discriminate | discriminate].
Defined.

(** C2, as stated, fails: the schema accepts an applied loan that
    supplies a commission, and it is stored with that commission. *)
Lemma C2_counterexample :
  Loan_validate (Sample.body_of Sample.applied_with_commission)
    = inr Sample.applied_with_commission /\
  exists loan_id db' rec,
    Sample.run Sample.applied_with_commission = (inr loan_id, db') /\
    loan db' !! loan_id = Some rec /\
    commission_amount rec = Some (of_Z 10) /\
    ~ (is_Some (commission_amount rec) <->
       status Sample.applied_with_commission = funded).
Proof.
  split; [vm_compute; reflexivity |].
  exists Sample.first_id, (snd (Sample.run Sample.applied_with_commission)),
    Sample.applied_with_commission.
  split; [vm_compute; reflexivity |].
  split; [vm_compute; reflexivity |].
  split; [reflexivity |].
  intros [H _]. specialize (H (ex_intro _ _ eq_refl)). discriminate H.
Qed.

Lemma C2_witness :
  exists rec,
    loan (snd (Sample.run Sample.applied_with_commission)) !! Sample.first_id
      = Some rec /\
    is_Some (commission_amount rec).
Proof.
  destruct (C2_commission_populated_iff Sample.float_of_str Sample.today
              Sample.applied_with_commission Sample.db Sample.first_id
              (snd (Sample.run Sample.applied_with_commission)))
    as (rec & Hrec & Hiff);
    [vm_compute; reflexivity |].
  exists rec. split; [exact Hrec |].
  apply Hiff. right. vm_compute. eauto.
Defined.

(** C3, as stated, fails: the schema accepts an empty customer
    reference, which names no customer, and the loan is created. *)
Lemma C3_counterexample :
  Loan_validate (Sample.body_of Sample.applied_empty_customer)
    = inr Sample.applied_empty_customer /\
  resolve_customer Sample.db (customer_id Sample.applied_empty_customer)
    = None /\
  exists db',
    Sample.run Sample.applied_empty_customer = (inr Sample.first_id, db') /\
    is_Some (loan db' !! Sample.first_id).
Proof.
  split; [vm_compute; reflexivity |].
  split; [vm_compute; reflexivity |].
  exists (snd (Sample.run Sample.applied_empty_customer)).
  split; [vm_compute; reflexivity |].
  vm_compute. eauto.
Qed.

Lemma C3_witness :
  exists detail db',
    Sample.run Sample.applied_unknown_customer
      = (inl (HTTPException 400 detail), db') /\
    loan db' = loan Sample.db.
Proof.
  apply (C3_unknown_customer_rejected Sample.float_of_str Sample.today
           Sample.applied_unknown_customer Sample.db).
  - vm_compute. discriminate.
  - vm_compute. reflexivity.
Defined.

(** C4. The reference of the first sample is well formed and names no
    record, that of the second is malformed; both creations are answered
    with the same message, for the customer and for the partner: the
    [HTTPException] raised for "not found" inside the [try] is caught by
    its own [except Exception] and replaced. *)
Theorem C4_reference_failures_share_one_message :
  is_Some (ObjectId Sample.unknown_ref) /\
  ObjectId Sample.malformed_ref = None /\
  fst (Sample.run Sample.applied_unknown_customer)
    = inl (HTTPException 400 "Invalid customer_id format") /\
  fst (Sample.run Sample.applied_malformed_customer)
    = inl (HTTPException 400 "Invalid customer_id format") /\
  fst (Sample.run Sample.applied_unknown_partner)
    = inl (HTTPException 400 "Invalid partner_id format") /\
  fst (Sample.run Sample.applied_malformed_partner)
    = inl (HTTPException 400 "Invalid partner_id format").
Proof.
  split; [vm_compute; eauto |].
  repeat split; vm_compute; reflexivity.
Qed.

Lemma C5_witness :
  exists rec,
    loan (snd (Sample.run Sample.applied_with_commission)) !! Sample.first_id
      = Some rec /\
    commission_amount rec = Some (of_Z 10) /\
    funded_date rec = Some 739000.
Proof.
  apply (C5_not_funded_passes_through Sample.float_of_str Sample.today
           Sample.applied_with_commission Sample.db Sample.first_id
           (snd (Sample.run Sample.applied_with_commission))).
  - vm_compute. reflexivity.
  - vm_compute. discriminate.
Defined.

Lemma C6_witness :
  exists rec,
    loan (snd (Sample.run Sample.funded_no_partner)) !! Sample.first_id
      = Some rec /\
    funded_date rec = Some 739000.
Proof.
  apply (C6_supplied_funded_date_kept Sample.float_of_str Sample.today
           Sample.funded_no_partner Sample.db Sample.first_id
           (snd (Sample.run Sample.funded_no_partner)) 739000).
  - vm_compute. reflexivity.
  - reflexivity.
  - reflexivity.
Defined.

(** C7, as stated, fails: the schema accepts an infinite amount
    ([inf > 0]); without a partner the commission is
    [round(inf * 0.0 / 100, 2)], which is NaN, not zero. *)
Lemma C7_counterexample :
  Loan_validate (Sample.body_of Sample.funded_infinite)
    = inr Sample.funded_infinite /\
  status Sample.funded_infinite = funded /\
  partner_id Sample.funded_infinite = None /\
  exists db' rec,
    Sample.run Sample.funded_infinite = (inr Sample.first_id, db') /\
    loan db' !! Sample.first_id = Some rec /\
    commission_amount rec = Some nan /\
    ~ same_number nan zero.
Proof.
  split; [vm_compute; reflexivity |].
  split; [reflexivity |]. split; [reflexivity |].
  exists (snd (Sample.run Sample.funded_infinite)).
  eexists. split; [vm_compute; reflexivity |].
  split; [vm_compute; reflexivity |].
  split; [reflexivity |].
  intros [H | [H _]]; discriminate H.
Qed.

Lemma C7_witness :
  exists rec,
    loan (snd (Sample.run Sample.funded_no_partner)) !! Sample.first_id
      = Some rec /\
    commission_amount rec = Some zero.
Proof.
  destruct (C7_no_partner_zero_commission Sample.float_of_str Sample.today
              Sample.funded_no_partner Sample.db Sample.first_id
              (snd (Sample.run Sample.funded_no_partner)))
    as (rec & c & Hrec & Hc & _ & Hz);
    [vm_compute; reflexivity .. |].
  exists rec. split; [exact Hrec |].
  rewrite Hc, Hz; reflexivity.
Defined.

(** C8, as stated, fails in its value: with an infinite amount and a
    partner that has no rate the creation succeeds, but the commission
    is NaN, not zero. *)
Lemma C8_counterexample :
  Loan_validate (Sample.body_of Sample.funded_infinite_bare_partner)
    = inr Sample.funded_infinite_bare_partner /\
  resolve_partner Sample.db Sample.bare_partner_ref
    = Some Sample.bare_partner_doc /\
  Sample.bare_partner_doc !! "commission_rate"%string = None /\
  exists db' rec,
    Sample.run Sample.funded_infinite_bare_partner
      = (inr Sample.first_id, db') /\
    loan db' !! Sample.first_id = Some rec /\
    commission_amount rec = Some nan /\
    ~ same_number nan zero.
Proof.
  split; [vm_compute; reflexivity |].
  split; [vm_compute; reflexivity |].
  split; [vm_compute; reflexivity |].
  exists (snd (Sample.run Sample.funded_infinite_bare_partner)).
  eexists. split; [vm_compute; reflexivity |].
  split; [vm_compute; reflexivity |].
  split; [reflexivity |].
  intros [H | [H _]]; discriminate H.
Qed.

Lemma C8_witness :
  exists loan_id db' rec,
    Sample.run Sample.funded_bare_partner = (inr loan_id, db') /\
    loan db' !! loan_id = Some rec /\
    commission_amount rec = Some zero.
Proof.
  destruct (C8_partner_without_rate Sample.float_of_str Sample.today
              Sample.funded_bare_partner Sample.db
              Sample.bare_partner_ref Sample.bare_partner_doc)
    as (loan_id & db' & rec & c & Hrun & Hrec & Hc & Hval & _).
  - reflexivity.
  - right. vm_compute. eauto.
  - reflexivity.
  - vm_compute. reflexivity.
  - vm_compute. reflexivity.
  - exists loan_id, db', rec. split; [exact Hrun |]. split; [exact Hrec |].
    rewrite Hc, Hval. reflexivity.
Defined.

Lemma C9_witness :
  exists fields,
    post_api_loans Sample.float_of_str Sample.today Sample.body_zero_amount
      Sample.db
      = (inl (RequestValidationError fields), Sample.db) /\
    "amount"%string ∈ fields.
Proof.
  apply (C9_non_positive_amount_rejected Sample.float_of_str Sample.today
           Sample.body_zero_amount Sample.db zero).
  - reflexivity.
  - reflexivity.
Defined.

Lemma C10_witness :
  Sample.run (set_commission_amount Sample.funded_with_partner
                (Some (of_Z 999)))
    = Sample.run Sample.funded_with_partner.
Proof.
  destruct (C10_supplied_commission_ignored Sample.float_of_str Sample.today
              Sample.funded_with_partner Sample.db Sample.first_id
              (snd (Sample.run Sample.funded_with_partner))
              (Some (of_Z 999)))
    as [Hsame _]; [vm_compute; reflexivity .. |].
  unfold Sample.run at 1. rewrite Hsame. vm_compute. reflexivity.
Defined.

(** ** Floats: the sign of a commission *)

Lemma shr_1_nonneg mrs : 0 <= shr_m mrs -> 0 <= shr_m (shr_1 mrs).
Proof.
  destruct mrs as [m r t]. simpl. intros Hm.
  destruct m as [| p | p]; [simpl; lia | | lia].
  destruct p; simpl; lia.
Qed.

Lemma iter_pos_shr_1_nonneg p mrs :
  0 <= shr_m mrs -> 0 <= shr_m (SpecFloat.iter_pos shr_1 p mrs).
Proof.
  revert mrs. induction p as [p IH | p IH |]; intros mrs Hm; simpl.
  - apply IH, IH, shr_1_nonneg, Hm.
  - apply IH, IH, Hm.
  - apply shr_1_nonneg, Hm.
Qed.

Lemma shr_fexp_nonneg m e l :
  0 <= m -> 0 <= shr_m (fst (shr_fexp prec emax m e l)).
Proof.
  intros Hm. unfold shr_fexp, shr.
  assert (H0 : 0 <= shr_m (shr_record_of_loc m l)).
  { destruct l as [| []]; exact Hm. }
  destruct (fexp prec emax (Zdigits2 m + e) - e) as [| p | p]; simpl;
    auto using iter_pos_shr_1_nonneg.
Qed.

Lemma round_nearest_even_nonneg m l : 0 <= m -> 0 <= round_nearest_even m l.
Proof.
  intros Hm. unfold round_nearest_even.
  destruct l as [| []]; try destruct (Z.even m); lia.
Qed.

(** Rounding a non-negative mantissa with a clear sign gives a number
    with a clear sign: never a NaN, never a negative zero. *)
Lemma binary_round_aux_sign_clear m e l :
  0 <= m -> sign_clear (binary_round_aux prec emax false m e l) = true.
Proof.
  intros Hm. unfold binary_round_aux.
  pose proof (shr_fexp_nonneg m e l Hm) as H1.
  destruct (shr_fexp prec emax m e l) as [mrs1 e1]. simpl in H1.
  pose proof (shr_fexp_nonneg _ e1 loc_Exact
                (round_nearest_even_nonneg _ (loc_of_shr_record mrs1) H1)) as H2.
  destruct (shr_fexp prec emax
              (round_nearest_even (shr_m mrs1) (loc_of_shr_record mrs1))
              e1 loc_Exact) as [mrs2 e2].
  simpl in H2. destruct (shr_m mrs2) as [| q | q]; [reflexivity | | lia].
  now destruct (e2 <=? emax - prec).
Qed.

Lemma mul_finite_sign_clear m1 e1 m2 e2 :
  sign_clear (mul (S754_finite false m1 e1) (S754_finite false m2 e2)) = true.
Proof. apply binary_round_aux_sign_clear. lia. Qed.

Lemma div_finite_sign_clear m1 e1 m2 e2 :
  sign_clear (div (S754_finite false m1 e1) (S754_finite false m2 e2)) = true.
Proof.
  unfold div, SFdiv, SFdiv_core_binary.
  set (s := e1 - e2 - _).
  set (m' := match s with Z.pos _ => Z.shiftl (Z.pos m1) s | 0 => Z.pos m1
                        | Z.neg _ => 0 end).
  assert (Hm' : 0 <= m').
  { subst m'. destruct s; [lia | | lia]. apply Z.shiftl_nonneg. lia. }
  pose proof (Z.div_pos m' (Z.pos m2) Hm' (Pos2Z.is_pos m2)) as Hq.
  unfold Z.div in Hq. destruct (Z.div_eucl m' (Z.pos m2)) as [q r].
  apply binary_round_aux_sign_clear, Hq.
Qed.

Lemma div_hundred_sign_clear x :
  sign_clear x = true -> sign_clear (div x hundred) = true.
Proof.
  rewrite hundred_eq.
  destruct x as [[] | [] | | [] m e]; try discriminate; intros _;
    [reflexivity | reflexivity | apply div_finite_sign_clear].
Qed.

Lemma round2_sign_clear x :
  sign_clear x = true -> sign_clear (round2 x) = true.
Proof.
  destruct x as [[] | [] | | [] m e]; try discriminate; intros _;
    [reflexivity | reflexivity |].
  unfold round2. destruct (0 <=? e); [reflexivity |].
  destruct (div_half_even (Z.pos m * 100) (2 ^ (- e)));
    [reflexivity | apply div_finite_sign_clear | reflexivity].
Qed.

Lemma sign_clear_leb x : sign_clear x = true -> leb zero x = true.
Proof. destruct x as [[] | [] | | [] m e]; try discriminate; reflexivity. Qed.

Lemma positive_cases a :
  ltb zero a = true ->
  a = S754_infinity false \/ exists m e, a = S754_finite false m e.
Proof.
  destruct a as [[] | [] | | [] m e]; try discriminate; eauto.
Qed.

(** The commission of a positive amount at a non-negative rate has a
    clear sign, unless the amount is infinite and the rate zero. *)
Lemma commission_sign_clear a r :
  ltb zero a = true ->
  leb zero r = true ->
  is_finite a = true \/ truthy r = true ->
  sign_clear (round2 (div (mul a (or_else r zero)) hundred)) = true.
Proof.
  intros Ha Hr Hfin.
  apply round2_sign_clear, div_hundred_sign_clear.
  unfold or_else. destruct (truthy r) eqn:Et.
  - destruct (positive_cases a Ha) as [-> | (m & e & ->)];
      destruct r as [[] | [] | | [] m' e']; try discriminate;
      try reflexivity; apply mul_finite_sign_clear.
  - destruct Hfin as [Hfin | Hfin]; [| discriminate].
    destruct (positive_cases a Ha) as [-> | (m & e & ->)];
      [discriminate | reflexivity].
Qed.

(** ** Identifiers: printing and reading back *)

Lemma hexchar_hexdigit n :
  (n < 16)%N -> hexdigit (hexchar n) = Some n /\ isspace (hexchar n) = false.
Proof.
  intros Hn.
  assert (H : n ∈ (N.of_nat <$> seq 0 16)).
  { apply list_elem_of_fmap. exists (N.to_nat n). split; [lia |].
    apply elem_of_seq. lia. }
  simpl in H. set_unfold in H.
  repeat (destruct H as [-> | H]; [split; reflexivity |]). contradiction.
Qed.

Lemma fromhex_hexlify bs : bytes bs -> fromhex (hexlify bs) = Some bs.
Proof.
  induction 1 as [| b bs Hb _ IH]; [reflexivity |].
  assert (Hhi : (b / 16 < 16)%N) by (apply N.Div0.div_lt_upper_bound; lia).
  assert (Hlo : (b mod 16 < 16)%N) by (apply N.mod_lt; lia).
  destruct (hexchar_hexdigit _ Hhi) as [Hd1 Hs1].
  destruct (hexchar_hexdigit _ Hlo) as [Hd2 _].
  change (hexlify (b :: bs))
    with (hexchar (b / 16) :: hexchar (b mod 16) :: hexlify bs).
  cbn [fromhex]. rewrite Hs1, Hd1, Hd2, IH.
  f_equal. f_equal. symmetry. apply N.div_mod. lia.
Qed.

Lemma length_hexlify bs : length (hexlify bs) = (2 * length bs)%nat.
Proof. induction bs as [| b bs IH]; simpl in *; lia. Qed.

Lemma length_string_of_list_ascii l :
  String.length (string_of_list_ascii l) = length l.
Proof. induction l as [| c l IH]; simpl; congruence. Qed.

Lemma ObjectId_str_read_back o :
  length o = 12%nat -> bytes o -> ObjectId (ObjectId_str o) = Some o.
Proof.
  intros Hlen Hb. unfold ObjectId, ObjectId_str.
  rewrite length_string_of_list_ascii, length_hexlify, Hlen.
  rewrite list_ascii_of_string_of_list_ascii. simpl Nat.eqb. cbv iota.
  now apply fromhex_hexlify.
Qed.

(** ** [serialize_doc] *)

Section SerializeProperties.

Variable datetime : Type.
Variable isoformat : datetime -> string.
Variable str_other : field datetime -> string.

Implicit Types d : gmap string (field datetime).

(** The loop, read key by key, when the items have distinct keys. *)
Lemma render_datetimes_items items d k :
  NoDup items.*1 ->
  render_datetimes isoformat items d !! k =
  match (list_to_map items : gmap string (field datetime)) !! k with
  | Some (Moment t) => Some (Stored (VStr (isoformat t)))
  | _ => d !! k
  end.
Proof.
  revert d. induction items as [| [k1 v1] items IH]; intros d Hnd.
  - reflexivity.
  - apply NoDup_cons in Hnd as [Hk1 Hnd].
    change (render_datetimes isoformat ((k1, v1) :: items) d)
      with (render_datetimes isoformat items
              match v1 with
              | Moment t => <[k1 := Stored (VStr (isoformat t))]> d
              | Stored _ => d
              end).
    rewrite (IH _ Hnd). cbn [list_to_map foldr uncurry].
    destruct (decide (k1 = k)) as [<- | Hne].
    + rewrite (not_elem_of_list_to_map_1 _ _ Hk1), lookup_insert_eq.
      destruct v1; [reflexivity | apply lookup_insert_eq].
    + rewrite (lookup_insert_ne _ _ _ _ Hne).
      destruct (list_to_map items !! k) as [[] |];
        destruct v1; try reflexivity; apply lookup_insert_ne, Hne.
Qed.

Lemma render_datetimes_lookup d k :
  render_datetimes isoformat (map_to_list d) d !! k =
  rendered isoformat <$> d !! k.
Proof.
  rewrite render_datetimes_items by apply NoDup_fst_map_to_list.
  rewrite list_to_map_to_list. now destruct (d !! k) as [[] |].
Qed.

Lemma serialize_doc_some d _id :
  d !! "_id"%string = Some _id ->
  serialize_doc isoformat str_other (Some d) =
  inr (Some (render_datetimes isoformat
               (map_to_list (<["id"%string := Stored (VStr (py_str str_other _id))]>
                               (delete "_id"%string d)))
               (<["id"%string := Stored (VStr (py_str str_other _id))]>
                  (delete "_id"%string d)))).
Proof.
  intros Hid. unfold serialize_doc.
  rewrite bool_decide_eq_false_2, Hid; [reflexivity |].
  intros ->. now rewrite lookup_empty in Hid.
Qed.

(** The identifier moves from [_id] to [id]. *)
Lemma serialize_doc_moves_id d _id :
  d !! "_id"%string = Some _id ->
  exists d',
    serialize_doc isoformat str_other (Some d) = inr (Some d') /\
    d' !! "id"%string = Some (Stored (VStr (py_str str_other _id))) /\
    d' !! "_id"%string = None.
Proof.
  intros Hid. eexists. split; [apply (serialize_doc_some _ _ Hid) |].
  rewrite !render_datetimes_lookup, lookup_insert_eq.
  rewrite lookup_insert_ne by discriminate.
  now rewrite lookup_delete_eq.
Qed.

Lemma serialize_doc_without_id d :
  d <> ∅ -> d !! "_id"%string = None ->
  serialize_doc isoformat str_other (Some d) = inl (KeyError "_id").
Proof.
  intros Hne Hid. unfold serialize_doc.
  now rewrite bool_decide_eq_false_2, Hid.
Qed.

(** X1. For a document that has an [_id], [serialize_doc] returns the
    document with [_id] removed, [id] set to the text of the identifier
    (whatever [id] held before), every [datetime] replaced by its
    [isoformat] text and every other field as it was. *)
Theorem serialize_doc_fields d _id :
  d !! "_id"%string = Some _id ->
  exists d',
    serialize_doc isoformat str_other (Some d) = inr (Some d') /\
    d' !! "id"%string = Some (Stored (VStr (py_str str_other _id))) /\
    d' !! "_id"%string = None /\
    forall k, k <> "id"%string -> k <> "_id"%string ->
      d' !! k = rendered isoformat <$> d !! k.
Proof.
  intros Hid. eexists. split; [apply (serialize_doc_some _ _ Hid) |].
  split; [| split].
  - now rewrite render_datetimes_lookup, lookup_insert_eq.
  - rewrite render_datetimes_lookup, lookup_insert_ne by discriminate.
    now rewrite lookup_delete_eq.
  - intros k Hk1 Hk2.
    rewrite render_datetimes_lookup, lookup_insert_ne by congruence.
    now rewrite lookup_delete_ne by congruence.
Qed.

(** X3. Whatever [serialize_doc] returns holds no [datetime] any more. *)
Theorem serialize_doc_no_datetime doc d' k x :
  serialize_doc isoformat str_other doc = inr (Some d') ->
  d' !! k = Some x ->
  is_moment x = false.
Proof.
  intros Hrun Hk. destruct doc as [d |]; [| discriminate].
  destruct (d !! "_id"%string) as [_id |] eqn:Hid.
  - rewrite (serialize_doc_some _ _ Hid) in Hrun. injection Hrun as <-.
    rewrite render_datetimes_lookup in Hk.
    destruct (_ !! k) as [[] |]; simpl in Hk; simplify_eq; reflexivity.
  - unfold serialize_doc in Hrun. rewrite Hid in Hrun.
    destruct (bool_decide (d = ∅)) eqn:Hd; [| discriminate].
    apply bool_decide_eq_true_1 in Hd. injection Hrun as <-.
    rewrite Hd, lookup_empty in Hk. discriminate.
Qed.

(** X4. [serialize_doc] cannot be applied twice: on the document it
    returned for a non-empty dictionary it raises [KeyError('_id')]. *)
Theorem serialize_doc_twice_raises d r :
  d <> ∅ ->
  serialize_doc isoformat str_other (Some d) = inr r ->
  serialize_doc isoformat str_other r = inl (KeyError "_id").
Proof.
  intros Hne Hrun.
  destruct (d !! "_id"%string) as [_id |] eqn:Hid.
  - destruct (serialize_doc_moves_id d _id Hid) as (d' & Hd' & Hnew & Hgone).
    rewrite Hd' in Hrun. injection Hrun as <-.
    apply serialize_doc_without_id; [| exact Hgone].
    intros ->. now rewrite lookup_empty in Hnew.
  - unfold serialize_doc in Hrun.
    rewrite bool_decide_eq_false_2, Hid in Hrun by exact Hne. discriminate.
Qed.

(** X5. The [id] that [serialize_doc] writes for a twelve-byte
    [ObjectId] reads back, with [ObjectId(...)], as that identifier. *)
Theorem serialize_doc_id_reads_back d o :
  d !! "_id"%string = Some (Stored (VOid o)) ->
  length o = 12%nat -> bytes o ->
  exists d' s,
    serialize_doc isoformat str_other (Some d) = inr (Some d') /\
    d' !! "id"%string = Some (Stored (VStr s)) /\
    ObjectId s = Some o.
Proof.
  intros Hid Hlen Hb.
  destruct (serialize_doc_moves_id d _ Hid) as (d' & Hd' & Hnew & _).
  exists d', (ObjectId_str o). repeat split; try assumption.
  now apply ObjectId_str_read_back.
Qed.

(** X6. A listing succeeds exactly when every document is empty or has
    an [_id]; it then has one entry per document, in the same order,
    each the serialization of its document. *)
Theorem serialize_docs_pointwise docs :
  ((exists out, serialize_docs isoformat str_other docs = inr out) <->
   Forall (fun d => d = ∅ \/ is_Some (d !! "_id"%string)) docs) /\
  forall out,
    serialize_docs isoformat str_other docs = inr out ->
    Forall2 (fun d r => serialize_doc isoformat str_other (Some d) = inr r)
      docs out.
Proof.
  induction docs as [| d docs [IHiff IHout]].
  - split; [split; [constructor | simpl; eauto] |].
    intros out [= <-]. constructor.
  - assert (Hd : (exists r, serialize_doc isoformat str_other (Some d) = inr r)
                 <-> d = ∅ \/ is_Some (d !! "_id"%string)).
    { split.
      - intros [r Hr]. destruct (decide (d = ∅)) as [| Hne]; [now left |].
        right. destruct (d !! "_id"%string) eqn:Hid; [eauto |].
        assert (serialize_doc isoformat str_other (Some d) = inl (KeyError "_id"))
          as Hfail by (apply serialize_doc_without_id; assumption).
        congruence.
      - intros [-> | [_id Hid]]; [simpl; eauto |].
        rewrite (serialize_doc_some _ _ Hid). eauto. }
    cbn [serialize_docs]. split; [split |].
    + intros [out Hout].
      destruct (serialize_doc isoformat str_other (Some d)) as [e | r] eqn:Hr;
        [discriminate |].
      destruct (serialize_docs isoformat str_other docs) as [e | rest] eqn:Hrest;
        [discriminate |].
      constructor; [apply Hd; eauto | apply IHiff; eauto].
    + intros Hall. apply Forall_cons in Hall as [H1 H2].
      apply Hd in H1 as [r ->]. apply IHiff in H2 as [rest ->]. eauto.
    + intros out Hout.
      destruct (serialize_doc isoformat str_other (Some d)) as [e | r] eqn:Hr;
        [discriminate |].
      destruct (serialize_docs isoformat str_other docs) as [e | rest] eqn:Hrest;
        [discriminate |].
      injection Hout as <-. constructor; [exact Hr | now apply IHout].
Qed.

End SerializeProperties.

(** ** [create_loan]: failures, lookups and the fields it keeps *)

Section MoreProperties.

Variable fos : string -> option float.

(** The record handed to [create_document] in the funded branch. *)
Lemma create_loan_steps today payload db :
  create_loan fos today payload db =
  match check_customer_id payload db with
  | (inl e, db1) => (inl e, db1)
  | (inr _, db1) =>
      match check_partner_id payload db1 with
      | (inl e, db2) => (inl e, db2)
      | (inr _, db2) =>
          if LoanStatus_eqb (status payload) funded then
            match fetch_rate fos payload db2 with
            | (inl e, db3) => (inl e, db3)
            | (inr rate, db3) =>
                let data :=
                  set_commission_amount payload
                    (Some (round2 (div (mul (amount payload) rate) hundred))) in
                create_document "loan"
                  (if date_truthy (funded_date payload) then data
                   else set_funded_date data (Some today)) db3
            end
          else create_document "loan" payload db2
      end
  end.
Proof.
  unfold create_loan, bind, model_dump.
  destruct (check_customer_id payload db) as [[e | []] db1]; [reflexivity |].
  destruct (check_partner_id payload db1) as [[e | []] db2]; [reflexivity |].
  destruct (LoanStatus_eqb (status payload) funded); [| reflexivity].
  destruct (fetch_rate fos payload db2) as [[e | rate] db3]; [reflexivity |].
  cbn [funded_date set_commission_amount].
  destruct (date_truthy (funded_date payload)); reflexivity.
Qed.

Lemma py_float_errors v db e db' :
  py_float fos v db = (inl e, db') ->
  e = TypeError \/ e = ValueError \/ e = OverflowError.
Proof.
  destruct v; simpl; unfold ret, raise; try (intros [= <- _]; auto);
    try discriminate.
  - destruct (of_Z z); try discriminate. intros [= <- _]; auto.
  - destruct (fos s); [discriminate | intros [= <- _]; auto].
Qed.

Lemma LoanStatus_eqb_funded st :
  LoanStatus_eqb st funded = true <-> st = funded.
Proof. destruct st; simpl; split; congruence. Qed.

(** When the partner check has passed, the rate lookup cannot fail on
    the identifier; what it can raise comes from [float(...)]. *)
Lemma fetch_rate_errors payload db1 db2 e db3 :
  check_partner_id payload db1 = (inr tt, db2) ->
  fetch_rate fos payload db2 = (inl e, db3) ->
  e = TypeError \/ e = ValueError \/ e = OverflowError.
Proof.
  rewrite check_partner_id_run, fetch_rate_run. cbv zeta.
  destruct (partner_id payload) as [pid |]; [| discriminate].
  destruct (str_truthy pid); [| discriminate].
  destruct (ObjectId pid) as [_id |]; [| discriminate].
  intros _.
  destruct (partner db2 !! _id) as [doc |]; [| discriminate].
  destruct (doc !! "commission_rate"%string) as [v |]; [| discriminate].
  destruct (py_float fos v (add_log (FindOne "partner" _id) db2))
    as [[e' | r] db4] eqn:Ef; simpl; [| discriminate].
  intros [= <- _]. eapply py_float_errors, Ef.
Qed.

(** X7. [create_loan] never writes to the customer or partner
    collection, and a creation that fails leaves the loan collection as
    it was. *)
Theorem create_loan_writes today payload db r db' :
  create_loan fos today payload db = (r, db') ->
  customer db' = customer db /\
  partner db' = partner db /\
  forall e, r = inl e -> loan db' = loan db.
Proof.
  intros Hrun. destruct r as [e | loan_id].
  - enough (same_collections db db') as (? & ? & ?) by auto.
    rewrite create_loan_steps in Hrun.
    destruct (check_customer_id payload db) as [[e1 | []] db1] eqn:E1.
    { injection Hrun as <- <-. eapply check_customer_id_frame, E1. }
    pose proof (check_customer_id_frame _ _ _ _ E1) as F1.
    destruct (check_partner_id payload db1) as [[e2 | []] db2] eqn:E2.
    { injection Hrun as <- <-.
      eauto using same_collections_trans, check_partner_id_frame. }
    pose proof (check_partner_id_frame _ _ _ _ E2) as F2.
    destruct (LoanStatus_eqb (status payload) funded); [| discriminate].
    destruct (fetch_rate fos payload db2) as [[e3 | rate] db3] eqn:E3;
      [| discriminate].
    injection Hrun as <- <-.
    eauto using same_collections_trans, fetch_rate_frame.
  - destruct (create_loan_inv fos _ _ _ _ _ Hrun) as (_ & _ & Hc & Hp & _).
    split; [exact Hc |]. split; [exact Hp |]. discriminate.
Qed.

(** The failures of [create_loan] on a store that answers. *)
Lemma create_loan_failure_cases today payload db e db' :
  create_loan fos today payload db = (inl e, db') ->
  e = HTTPException 400 "Invalid customer_id format" \/
  e = HTTPException 400 "Invalid partner_id format" \/
  (status payload = funded /\
   (e = TypeError \/ e = ValueError \/ e = OverflowError)).
Proof.
  rewrite create_loan_steps.
  destruct (check_customer_id payload db) as [[e1 | []] db1] eqn:E1.
  { intros [= <- <-]. left. rewrite check_customer_id_run in E1.
    repeat case_match; simplify_eq; reflexivity. }
  destruct (check_partner_id payload db1) as [[e2 | []] db2] eqn:E2.
  { intros [= <- <-]. right. left. rewrite check_partner_id_run in E2.
    repeat case_match; simplify_eq; reflexivity. }
  destruct (LoanStatus_eqb (status payload) funded) eqn:Est; [| discriminate].
  destruct (fetch_rate fos payload db2) as [[e3 | rate] db3] eqn:E3;
    [| discriminate].
  intros [= <- <-]. right. right.
  split; [now apply LoanStatus_eqb_funded |].
  eapply fetch_rate_errors; eassumption.
Qed.

(** X8. Whatever makes [create_loan] fail, it is never [InvalidId] (the
    unguarded [ObjectId(...)] of line 107 only sees a reference that the
    check has parsed), and an [HTTPException] it raises always has
    status 400 and one of the two "format" messages: the messages
    "Invalid customer_id" and "Invalid partner_id" are never returned. *)
Theorem create_loan_reported_failures today payload db e db' :
  create_loan fos today payload db = (inl e, db') ->
  e <> InvalidId /\
  forall status_code detail,
    e = HTTPException status_code detail ->
    status_code = 400 /\
    (detail = "Invalid customer_id format"%string \/
     detail = "Invalid partner_id format"%string).
Proof.
  intros Hrun.
  destruct (create_loan_failure_cases _ _ _ _ _ Hrun)
    as [-> | [-> | (_ & [-> | [-> | ->]])]].
  - split; [discriminate |]. intros code detail [= <- <-]. auto.
  - split; [discriminate |]. intros code detail [= <- <-]. auto.
  - split; discriminate.
  - split; discriminate.
  - split; discriminate.
Qed.

(** The customer check passes on a reference that is empty or names a
    customer. *)
Lemma check_customer_id_passes payload db :
  customer_id payload = ""%string \/
    is_Some (resolve_customer db (customer_id payload)) ->
  exists db1, check_customer_id payload db = (inr tt, db1) /\
              same_collections db db1.
Proof.
  intros Hcust. rewrite check_customer_id_run. unfold resolve_customer in Hcust.
  destruct Hcust as [-> | [doc Hdoc]];
    [eauto using same_collections_refl |].
  destruct (ObjectId (customer_id payload)) as [_id |] eqn:Hid;
    [| discriminate].
  rewrite (ObjectId_truthy _ _ Hid), Hdoc.
  eauto using same_collections_add_log.
Qed.

(** X9. When the customer check passes, a partner reference that is not
    empty and names no stored partner stops the creation with status
    400; nothing is stored. *)
Theorem create_loan_unknown_partner today payload db pid :
  customer_id payload = ""%string \/
    is_Some (resolve_customer db (customer_id payload)) ->
  partner_id payload = Some pid ->
  pid <> ""%string ->
  resolve_partner db pid = None ->
  exists db',
    create_loan fos today payload db =
      (inl (HTTPException 400 "Invalid partner_id format"), db') /\
    loan db' = loan db.
Proof.
  intros Hcust Hpid Hne Hres.
  destruct (check_customer_id_passes payload db Hcust) as (db1 & E1 & F1).
  rewrite create_loan_steps, E1, check_partner_id_run, Hpid.
  apply str_truthy_true in Hne. rewrite Hne.
  destruct F1 as (_ & Hp1 & Hl1). unfold resolve_partner in Hres.
  destruct (ObjectId pid) as [_id |]; [rewrite Hp1, Hres |]; eauto.
Qed.

(** X10. A loan created with status funded and no funding date in the
    request is stored with the current date. *)
Theorem create_loan_fills_funded_date today payload db loan_id db' :
  create_loan fos today payload db = (inr loan_id, db') ->
  status payload = funded ->
  funded_date payload = None ->
  exists rec, loan db' !! loan_id = Some rec /\ funded_date rec = Some today.
Proof.
  intros Hrun Hst Hd.
  destruct (create_loan_stored fos _ _ _ _ _ Hrun) as (rec & Hrec & _ & Hf).
  destruct (Hf Hst) as (rate & _ & (_ & _ & _ & _ & _ & _ & Hfd)).
  exists rec. split; [exact Hrec |]. now rewrite Hfd, Hd.
Qed.

(** X11. A partner document whose [commission_rate] is null makes a
    funded creation fail with a [TypeError], storing nothing, while the
    same request with another status is created. *)
Theorem create_loan_null_rate today payload db pid p :
  customer_id payload = ""%string \/
    is_Some (resolve_customer db (customer_id payload)) ->
  partner_id payload = Some pid ->
  resolve_partner db pid = Some p ->
  p !! "commission_rate"%string = Some VNull ->
  (status payload = funded ->
   exists db', create_loan fos today payload db = (inl TypeError, db') /\
               loan db' = loan db) /\
  (status payload <> funded ->
   exists loan_id db', create_loan fos today payload db = (inr loan_id, db')).
Proof.
  intros Hcust Hpid Hres Hr. split.
  - intros Hst.
    destruct (check_customer_id_passes payload db Hcust) as (db1 & E1 & F1).
    destruct F1 as (_ & Hp1 & Hl1). unfold resolve_partner in Hres.
    destruct (ObjectId pid) as [_id |] eqn:Hid; [| discriminate].
    rewrite create_loan_steps, E1, check_partner_id_run, Hpid.
    rewrite (ObjectId_truthy _ _ Hid), Hid, Hp1, Hres, Hst. cbn [LoanStatus_eqb].
    rewrite fetch_rate_run, Hpid, (ObjectId_truthy _ _ Hid), Hid. cbv zeta.
    cbn [partner add_log]. rewrite Hp1, Hres, Hr. simpl. eauto.
  - intros Hst. apply create_loan_succeeds; [exact Hcust | | contradiction].
    intros pid' Hpid'. rewrite Hpid in Hpid'. injection Hpid' as <-.
    right. rewrite Hres. eauto.
Qed.

End MoreProperties.

(** ** [create_loan]: the operations on the store *)

Section StoreOperations.

Variable fos : string -> option float.

(** X12. The operations of a successful creation whose two references
    are present: one lookup of the customer, one of the partner, a
    second lookup of the same partner when the status is funded, and
    the insert. *)
Theorem create_loan_operations today payload db loan_id db' c pid q :
  create_loan fos today payload db = (inr loan_id, db') ->
  ObjectId (customer_id payload) = Some c ->
  partner_id payload = Some pid ->
  ObjectId pid = Some q ->
  log db' =
    log db ++ [FindOne "customer" c; FindOne "partner" q] ++
    (if LoanStatus_eqb (status payload) funded
     then [FindOne "partner" q] else []) ++
    [InsertOne "loan" loan_id].
Proof.
  intros Hrun Hc Hpid Hq. rewrite create_loan_steps in Hrun.
  rewrite check_customer_id_run, (ObjectId_truthy _ _ Hc), Hc in Hrun.
  destruct (customer db !! c); [| discriminate].
  rewrite check_partner_id_run, Hpid, (ObjectId_truthy _ _ Hq), Hq in Hrun.
  destruct (partner _ !! q); [| discriminate].
  destruct (LoanStatus_eqb (status payload) funded).
  - rewrite fetch_rate_run, Hpid, (ObjectId_truthy _ _ Hq), Hq in Hrun.
    cbv zeta in Hrun.
    repeat case_match; simplify_eq; unfold create_document in *;
      simplify_eq; simpl; rewrite <- !app_assoc; reflexivity.
  - unfold create_document in Hrun. simplify_eq. simpl.
    rewrite <- !app_assoc. reflexivity.
Qed.

(** X13. A customer reference that fails stops the creation before the
    partner is looked at: the only operation is the lookup of the
    customer, and a malformed reference costs no operation at all. *)
Theorem create_loan_customer_failure_operations today payload db :
  customer_id payload <> ""%string ->
  resolve_customer db (customer_id payload) = None ->
  log (snd (create_loan fos today payload db)) =
    log db ++
    match ObjectId (customer_id payload) with
    | Some c => [FindOne "customer" c]
    | None => []
    end.
Proof.
  intros Hne Hres. apply str_truthy_true in Hne.
  rewrite create_loan_steps, check_customer_id_run, Hne.
  unfold resolve_customer in Hres.
  destruct (ObjectId (customer_id payload)) as [c |].
  - rewrite Hres. reflexivity.
  - simpl. now rewrite app_nil_r.
Qed.

(** X14. Every loan that is created is stored with the customer and
    partner references, the amount, the status and the application date
    of the request. *)
Theorem create_loan_keeps_request_fields today payload db loan_id db' :
  create_loan fos today payload db = (inr loan_id, db') ->
  exists rec,
    loan db' !! loan_id = Some rec /\
    customer_id rec = customer_id payload /\
    partner_id rec = partner_id payload /\
    amount rec = amount payload /\
    status rec = status payload /\
    application_date rec = application_date payload.
Proof.
  intros Hrun.
  destruct (create_loan_stored fos _ _ _ _ _ Hrun) as (rec & Hrec & Hnf & Hf).
  exists rec. split; [exact Hrec |].
  destruct (decide (status payload = funded)) as [Hst | Hst].
  - destruct (Hf Hst) as (rate & _ & (? & ? & ? & ? & ? & _)). auto.
  - rewrite (Hnf Hst). auto.
Qed.

(** X15. An empty partner reference counts as none: the creation needs
    no partner, the reference is stored as given, and a funded loan gets
    the commission of rate 0. *)
Theorem create_loan_empty_partner today payload db :
  customer_id payload = ""%string \/
    is_Some (resolve_customer db (customer_id payload)) ->
  partner_id payload = Some ""%string ->
  exists loan_id db' rec,
    create_loan fos today payload db = (inr loan_id, db') /\
    loan db' !! loan_id = Some rec /\
    partner_id rec = Some ""%string /\
    (status payload = funded ->
     commission_amount rec =
       Some (round2 (div (mul (amount payload) zero) hundred))).
Proof.
  intros Hcust Hpid.
  assert (Hrate : forall db0, fst (fetch_rate fos payload db0) = inr zero).
  { intros db0. now rewrite fetch_rate_run, Hpid. }
  destruct (create_loan_succeeds fos today payload db Hcust)
    as (loan_id & db' & Hrun).
  { intros pid' Hpid'. rewrite Hpid in Hpid'. injection Hpid' as <-. now left. }
  { intros _. eauto. }
  destruct (create_loan_stored fos _ _ _ _ _ Hrun) as (rec & Hrec & Hnf & Hf).
  exists loan_id, db', rec. split; [exact Hrun |]. split; [exact Hrec |].
  split.
  - destruct (decide (status payload = funded)) as [Hst | Hst].
    + destruct (Hf Hst) as (rate & _ & (_ & Hp & _)). now rewrite Hp.
    + now rewrite (Hnf Hst).
  - intros Hst.
    destruct (Hf Hst) as (rate & Hr & (_ & _ & _ & _ & _ & Hc & _)).
    rewrite Hrate in Hr. injection Hr as <-. exact Hc.
Qed.

(** ** The schemas and the handler together *)

Lemma Loan_validate_bounds body payload :
  Loan_validate body = inr payload ->
  ltb zero (amount payload) = true /\
  forall c, commission_amount payload = Some c -> leb zero c = true.
Proof.
  unfold Loan_validate, validate_amount, validate_commission_amount.
  destruct (validate_customer_id body); [discriminate |].
  destruct (body_amount body) as [a |]; [| discriminate].
  destruct (ltb zero a) eqn:Ha; [| discriminate].
  destruct (validate_status body); [discriminate |].
  destruct (body_commission_amount body) as [c |].
  - destruct (leb zero c) eqn:Hc; [| discriminate].
    intros [= <-]. split; [exact Ha |]. simpl. congruence.
  - intros [= <-]. split; [exact Ha |]. discriminate.
Qed.

Lemma Partner_model_dump_rate p :
  Partner_model_dump p !! "commission_rate"%string
    = Some (VFloat (commission_rate p)).
Proof.
  unfold Partner_model_dump.
  repeat (rewrite lookup_insert_ne by discriminate).
  apply lookup_insert_eq.
Qed.

Lemma Partner_validate_rate body p :
  Partner_validate body = inr p -> leb zero (commission_rate p) = true.
Proof.
  unfold Partner_validate, validate_commission_rate.
  destruct (validate_name body); [discriminate |].
  destruct (pbody_commission_rate body) as [r |].
  - destruct (leb zero r) eqn:H0; [| discriminate].
    destruct (leb r hundred); [| discriminate]. now intros [= <-].
  - now intros [= <-].
Qed.

(** X18. Schema-valid in, schema-valid out: for a request the [Loan]
    schema admits, with a finite amount and status funded, that refers
    to a partner stored as the dump of a model the [Partner] schema
    admits, the stored commission is a number that is not negative, as
    the schema requires of [commission_amount]. *)
Theorem funded_commission_not_negative
    today body payload pbody p pid db loan_id db' :
  Loan_validate body = inr payload ->
  Partner_validate pbody = inr p ->
  status payload = funded ->
  is_finite (amount payload) = true ->
  partner_id payload = Some pid ->
  resolve_partner db pid = Some (Partner_model_dump p) ->
  post_api_loans fos today body db = (inr loan_id, db') ->
  exists rec c,
    loan db' !! loan_id = Some rec /\
    commission_amount rec = Some c /\
    leb zero c = true.
Proof.
  intros Hv Hpv Hst Hfin Hpid Hres Hrun.
  unfold post_api_loans in Hrun. rewrite Hv in Hrun.
  destruct (Loan_validate_bounds _ _ Hv) as (Ha & _).
  pose proof (Partner_validate_rate _ _ Hpv) as Hr0.
  pose proof (Partner_model_dump_rate p) as Hdump.
  destruct (create_loan_stored fos _ _ _ _ _ Hrun) as (rec & Hrec & _ & Hf).
  destruct (Hf Hst) as (rate & Hrate & (_ & _ & _ & _ & _ & Hc & _)).
  rewrite (fetch_rate_float fos _ _ _ _ _ Hpid Hres Hdump) in Hrate.
  injection Hrate as <-.
  exists rec. eexists. split; [exact Hrec |]. split; [exact Hc |].
  apply sign_clear_leb, commission_sign_clear; auto.
Qed.

(** X19. Every loan stored through [POST /api/loans] has a positive
    amount, and when its status is not funded its commission is absent
    or not negative. *)
Theorem post_api_loans_stores_valid_amount today body db loan_id db' :
  post_api_loans fos today body db = (inr loan_id, db') ->
  exists rec,
    loan db' !! loan_id = Some rec /\
    ltb zero (amount rec) = true /\
    (status rec <> funded ->
     forall c, commission_amount rec = Some c -> leb zero c = true).
Proof.
  unfold post_api_loans.
  destruct (Loan_validate body) as [fields | payload] eqn:Hv; [discriminate |].
  intros Hrun.
  destruct (Loan_validate_bounds _ _ Hv) as (Ha & Hc).
  destruct (create_loan_stored fos _ _ _ _ _ Hrun) as (rec & Hrec & Hnf & Hf).
  exists rec. split; [exact Hrec |].
  destruct (decide (status payload = funded)) as [Hst | Hst].
  - destruct (Hf Hst) as (rate & _ & (_ & _ & Hamt & Hst' & _)).
    split; [now rewrite Hamt |]. intros Hne. congruence.
  - rewrite (Hnf Hst). split; [exact Ha |]. intros _. exact Hc.
Qed.

(** X20. The [id] under which [serialize_doc] shows a stored customer
    is accepted as [customer_id]: a request with that reference and no
    partner is created. *)
Theorem listed_customer_id_is_accepted
    {datetime} (isoformat : datetime -> string) str_other
    today payload db o doc :
  customer db !! o = Some doc ->
  length o = 12%nat -> bytes o ->
  partner_id payload = None ->
  exists d' s,
    serialize_doc isoformat str_other (Some (read_back (with_id o doc)))
      = inr (Some d') /\
    d' !! "id"%string = Some (Stored (VStr s)) /\
    (customer_id payload = s ->
     exists loan_id db', create_loan fos today payload db = (inr loan_id, db')).
Proof.
  intros Hdoc Hlen Hb Hpid.
  destruct (serialize_doc_moves_id datetime isoformat str_other
              (read_back (with_id o doc)) (Stored (VOid o)))
    as (d' & Hrun & Hnew & _).
  { unfold read_back, with_id. now rewrite lookup_fmap, lookup_insert_eq. }
  pose proof (ObjectId_str_read_back o Hlen Hb) as Hs.
  exists d', (ObjectId_str o). split; [exact Hrun |]. split; [exact Hnew |].
  intros Hcid. apply create_loan_succeeds.
  - right. exists doc. unfold resolve_customer. rewrite Hcid, Hs. exact Hdoc.
  - intros pid Hpid'. congruence.
  - intros _. rewrite (fetch_rate_no_partner fos _ _ Hpid). eauto.
Qed.

End StoreOperations.

(** ** The further properties on the sample data *)

Lemma serialize_doc_fields_witness :
  exists d',
    serialize_doc SampleDocs.isoformat SampleDocs.str_other
      (Some SampleDocs.customer_read) = inr (Some d') /\
    d' !! "id"%string = Some (Stored (VStr Sample.customer_ref)) /\
    d' !! "created_at"%string = Some (Stored (VStr "2024-05-17T09:30:00")).
Proof.
  destruct (serialize_doc_fields _ SampleDocs.isoformat SampleDocs.str_other
              SampleDocs.customer_read
              (Stored (VOid (Sample.oid_of Sample.customer_ref))))
    as (d' & Hrun & Hnew & _ & Hrest);
    [vm_compute; reflexivity |].
  exists d'. split; [exact Hrun |]. split; [exact Hnew |].
  rewrite Hrest by discriminate. vm_compute. reflexivity.
Defined.

Lemma serialize_doc_no_datetime_witness :
  SampleDocs.customer_listed !! "created_at"%string
    = Some (Stored (VStr "2024-05-17T09:30:00")) /\
  is_moment (Stored (VStr "2024-05-17T09:30:00") : field SampleDocs.naive)
    = false.
Proof.
  split; [vm_compute; reflexivity |].
  apply (serialize_doc_no_datetime _ SampleDocs.isoformat SampleDocs.str_other
           (Some SampleDocs.customer_read) SampleDocs.customer_listed
           "created_at" (Stored (VStr "2024-05-17T09:30:00"))).
  - vm_compute. reflexivity.
  - vm_compute. reflexivity.
Defined.

Lemma serialize_doc_twice_raises_witness :
  serialize_doc SampleDocs.isoformat SampleDocs.str_other
    (Some SampleDocs.customer_listed) = inl (KeyError "_id").
Proof.
  apply (serialize_doc_twice_raises _ SampleDocs.isoformat SampleDocs.str_other
           SampleDocs.customer_read (Some SampleDocs.customer_listed)).
  - intros H. apply (f_equal (fun d => d !! "_id"%string)) in H.
    vm_compute in H. discriminate H.
  - vm_compute. reflexivity.
Defined.

Lemma serialize_doc_id_reads_back_witness :
  exists d' s,
    serialize_doc SampleDocs.isoformat SampleDocs.str_other
      (Some SampleDocs.customer_read) = inr (Some d') /\
    d' !! "id"%string = Some (Stored (VStr s)) /\
    ObjectId s = Some (Sample.oid_of Sample.customer_ref).
Proof.
  apply (serialize_doc_id_reads_back _ SampleDocs.isoformat SampleDocs.str_other
           SampleDocs.customer_read (Sample.oid_of Sample.customer_ref)).
  - vm_compute. reflexivity.
  - reflexivity.
  - vm_compute. repeat constructor.
Defined.

Lemma create_loan_writes_witness :
  customer (snd (SampleDocs.run SampleDocs.funded_null_rate))
    = customer SampleDocs.db /\
  partner (snd (SampleDocs.run SampleDocs.funded_null_rate))
    = partner SampleDocs.db /\
  loan (snd (SampleDocs.run SampleDocs.funded_null_rate)) = loan SampleDocs.db.
Proof.
  destruct (create_loan_writes Sample.float_of_str Sample.today
              SampleDocs.funded_null_rate SampleDocs.db
              (inl TypeError)
              (snd (SampleDocs.run SampleDocs.funded_null_rate)))
    as (Hc & Hp & Hl); [vm_compute; reflexivity |].
  split; [exact Hc |]. split; [exact Hp |]. exact (Hl TypeError eq_refl).
Defined.

Lemma create_loan_reported_failures_witness :
  fst (SampleDocs.run SampleDocs.funded_unknown_partner)
    = inl (HTTPException 400 "Invalid partner_id format") /\
  HTTPException 400 "Invalid partner_id format" <> InvalidId.
Proof.
  split; [vm_compute; reflexivity |].
  apply (create_loan_reported_failures Sample.float_of_str Sample.today
           SampleDocs.funded_unknown_partner SampleDocs.db
           (HTTPException 400 "Invalid partner_id format")
           (snd (SampleDocs.run SampleDocs.funded_unknown_partner))).
  vm_compute. reflexivity.
Defined.

Lemma create_loan_unknown_partner_witness :
  exists db',
    SampleDocs.run SampleDocs.funded_unknown_partner
      = (inl (HTTPException 400 "Invalid partner_id format"), db') /\
    loan db' = loan SampleDocs.db.
Proof.
  apply (create_loan_unknown_partner Sample.float_of_str Sample.today
           SampleDocs.funded_unknown_partner SampleDocs.db Sample.unknown_ref).
  - right. vm_compute. eauto.
  - reflexivity.
  - discriminate.
  - vm_compute. reflexivity.
Defined.

Lemma create_loan_fills_funded_date_witness :
  exists rec,
    loan (snd (Sample.run Sample.funded_with_partner)) !! Sample.first_id
      = Some rec /\
    funded_date rec = Some Sample.today.
Proof.
  apply (create_loan_fills_funded_date Sample.float_of_str Sample.today
           Sample.funded_with_partner Sample.db Sample.first_id
           (snd (Sample.run Sample.funded_with_partner))).
  - vm_compute. reflexivity.
  - reflexivity.
  - reflexivity.
Defined.

Lemma create_loan_null_rate_witness :
  exists db',
    SampleDocs.run SampleDocs.funded_null_rate = (inl TypeError, db') /\
    loan db' = loan SampleDocs.db.
Proof.
  destruct (create_loan_null_rate Sample.float_of_str Sample.today
              SampleDocs.funded_null_rate SampleDocs.db
              SampleDocs.null_rate_ref SampleDocs.null_rate_doc)
    as [Hfunded _].
  - right. vm_compute. eauto.
  - reflexivity.
  - vm_compute. reflexivity.
  - vm_compute. reflexivity.
  - exact (Hfunded eq_refl).
Defined.

Lemma create_loan_operations_witness :
  log (snd (Sample.run Sample.funded_with_partner)) =
    [FindOne "customer" (Sample.oid_of Sample.customer_ref);
     FindOne "partner" (Sample.oid_of Sample.partner_ref);
     FindOne "partner" (Sample.oid_of Sample.partner_ref);
     InsertOne "loan" Sample.first_id].
Proof.
  apply (create_loan_operations Sample.float_of_str Sample.today
           Sample.funded_with_partner Sample.db Sample.first_id
           (snd (Sample.run Sample.funded_with_partner))
           (Sample.oid_of Sample.customer_ref) Sample.partner_ref
           (Sample.oid_of Sample.partner_ref));
    vm_compute; reflexivity.
Defined.

Lemma create_loan_customer_failure_operations_witness :
  log (snd (SampleDocs.run SampleDocs.funded_unknown_both)) =
    [FindOne "customer" (Sample.oid_of Sample.unknown_ref)].
Proof.
  apply (create_loan_customer_failure_operations Sample.float_of_str
           Sample.today SampleDocs.funded_unknown_both SampleDocs.db).
  - discriminate.
  - vm_compute. reflexivity.
Defined.

Lemma create_loan_keeps_request_fields_witness :
  exists rec,
    loan (snd (Sample.run Sample.funded_with_partner)) !! Sample.first_id
      = Some rec /\
    customer_id rec = Sample.customer_ref /\
    partner_id rec = Some Sample.partner_ref /\
    amount rec = of_Z 1000 /\
    status rec = funded /\
    application_date rec = None.
Proof.
  apply (create_loan_keeps_request_fields Sample.float_of_str Sample.today
           Sample.funded_with_partner Sample.db Sample.first_id
           (snd (Sample.run Sample.funded_with_partner))).
  vm_compute. reflexivity.
Defined.

Lemma create_loan_empty_partner_witness :
  exists loan_id db' rec,
    SampleDocs.run SampleDocs.funded_empty_partner = (inr loan_id, db') /\
    loan db' !! loan_id = Some rec /\
    partner_id rec = Some ""%string /\
    commission_amount rec = Some zero.
Proof.
  destruct (create_loan_empty_partner Sample.float_of_str Sample.today
              SampleDocs.funded_empty_partner SampleDocs.db)
    as (loan_id & db' & rec & Hrun & Hrec & Hp & Hc).
  - right. vm_compute. eauto.
  - reflexivity.
  - exists loan_id, db', rec. split; [exact Hrun |]. split; [exact Hrec |].
    split; [exact Hp |]. rewrite (Hc eq_refl). reflexivity.
Defined.

Lemma funded_commission_not_negative_witness :
  exists rec c,
    loan (snd (SampleDocs.post (Sample.body_of SampleDocs.funded_dumped_partner)
                 SampleDocs.db_dumped)) !! Sample.first_id = Some rec /\
    commission_amount rec = Some c /\
    leb zero c = true.
Proof.
  apply (funded_commission_not_negative Sample.float_of_str Sample.today
           (Sample.body_of SampleDocs.funded_dumped_partner)
           SampleDocs.funded_dumped_partner
           SampleDocs.partner_body SampleDocs.partner_model
           SampleDocs.dumped_ref SampleDocs.db_dumped Sample.first_id
           (snd (SampleDocs.post (Sample.body_of SampleDocs.funded_dumped_partner)
                   SampleDocs.db_dumped)));
    vm_compute; reflexivity.
Defined.

Lemma post_api_loans_stores_valid_amount_witness :
  exists rec,
    loan (snd (SampleDocs.post (Sample.body_of Sample.applied_with_commission)
                 Sample.db)) !! Sample.first_id = Some rec /\
    ltb zero (amount rec) = true /\
    (status rec <> funded ->
     forall c, commission_amount rec = Some c -> leb zero c = true).
Proof.
  apply (post_api_loans_stores_valid_amount Sample.float_of_str Sample.today
           (Sample.body_of Sample.applied_with_commission) Sample.db
           Sample.first_id
           (snd (SampleDocs.post (Sample.body_of Sample.applied_with_commission)
                   Sample.db))).
  vm_compute. reflexivity.
Defined.

Lemma listed_customer_id_is_accepted_witness :
  exists d' s,
    serialize_doc SampleDocs.isoformat SampleDocs.str_other
      (Some (read_back (with_id (Sample.oid_of Sample.customer_ref)
                          Sample.customer_doc))) = inr (Some d') /\
    d' !! "id"%string = Some (Stored (VStr s)) /\
    (customer_id Sample.funded_no_partner = s ->
     exists loan_id db',
       Sample.run Sample.funded_no_partner = (inr loan_id, db')).
Proof.
  apply (listed_customer_id_is_accepted Sample.float_of_str
           SampleDocs.isoformat SampleDocs.str_other Sample.today
           Sample.funded_no_partner Sample.db
           (Sample.oid_of Sample.customer_ref) Sample.customer_doc).
  - vm_compute. reflexivity.
  - reflexivity.
  - vm_compute. repeat constructor.
  - reflexivity.
Defined.
